(** * osyllabi: the retrieval pipeline

    A shallow embedding of [osyllabi/generator/resource/manager.py]
    (deduplication, truncation, context assembly) and of
    [osyllabi/rag/engine.py] (the RAG engine), with the properties the
    specification states about them; then of the logging context of
    [osyllabi/utils/log.py] and of the help texts of
    [osyllabi/utils/cli/help.py], with further properties of all four.

    Python values are modelled as follows.
    - [str]: [string]; a character is a code point below 256.
    - [int]: [Z]; a length obtained from [len] is converted with
      [Z.of_nat].  [top_k], which only the vector store reads, is a [nat].
    - [float] similarity scores: [Q].
    - [dict] iterated in insertion order: an association list whose keys
      are pairwise distinct; a [dict] that is only looked up: [gmap].
    - [set]: [gset].
    - a raised exception: the [Raise] case of [result]. *)

From stdpp Require Import base strings list gmap pretty sorting.
From Stdlib Require Import Ascii ZArith QArith Qabs.

#[local] Close Scope Q_scope.
#[local] Open Scope Z_scope.

(** ** Exceptions and results *)

Inductive exn : Type :=
  | KeyError (key : string)
  | RuntimeError (msg : string)
  | FileNotFoundError (msg : string).

Inductive result (A : Type) : Type :=
  | Ok (a : A)
  | Raise (e : exn).
Arguments Ok {A} a.
Arguments Raise {A} e.


(** ** Python [str] operations *)

Module PyStr.

(** [str.isspace] on one character: TAB..CR, FS..US, SPACE, NEL, NBSP. *)
Definition isspace (c : ascii) : bool :=
  let n := N_of_ascii c in
  ((9 <=? n) && (n <=? 13) || (28 <=? n) && (n <=? 32)
   || (n =? 133) || (n =? 160))%N.

(** [str.lower] on one character: A..Z and the accented capitals
    0xC0..0xDE (0xD7, the multiplication sign, apart) move up by 32. *)
Definition lower_char (c : ascii) : ascii :=
  let n := N_of_ascii c in
  if ((65 <=? n) && (n <=? 90)
      || (192 <=? n) && (n <=? 222) && negb (n =? 215))%N
  then ascii_of_N (n + 32) else c.

Fixpoint lower (s : string) : string :=
  match s with
  | EmptyString => EmptyString
  | String c r => String (lower_char c) (lower r)
  end.

Fixpoint all_space (s : string) : bool :=
  match s with
  | EmptyString => true
  | String c r => isspace c && all_space r
  end.

Fixpoint lstrip (s : string) : string :=
  match s with
  | EmptyString => EmptyString
  | String c r => if isspace c then lstrip r else s
  end.

(** Trailing whitespace goes: from the first position after which only
    whitespace follows, nothing is kept. *)
Fixpoint rstrip (s : string) : string :=
  match s with
  | EmptyString => EmptyString
  | String c r =>
      if isspace c && all_space r then EmptyString else String c (rstrip r)
  end.

(** [s.strip()] *)
Definition strip (s : string) : string := rstrip (lstrip s).

(** [s[:n]] for [n >= 0]. *)
Fixpoint take (n : nat) (s : string) : string :=
  match n, s with
  | O, _ => EmptyString
  | S _, EmptyString => EmptyString
  | S n', String c r => String c (take n' r)
  end.

(** [s[:n]] for any [int]: a negative bound counts from the end. *)
Definition slice_to (n : Z) (s : string) : string :=
  if 0 <=? n then take (Z.to_nat n) s
  else take (Z.to_nat (Z.of_nat (String.length s) + n)) s.

(** [re.sub(r'\s+', ' ', s)]: every maximal run of whitespace becomes
    one space.  [in_run] tells that the previous character was
    whitespace, so that the run has already produced its space. *)
Fixpoint collapse (in_run : bool) (s : string) : string :=
  match s with
  | EmptyString => EmptyString
  | String c r =>
      if isspace c
      then (if in_run then collapse true r
            else String " "%char (collapse true r))
      else String c (collapse false r)
  end.

Definition re_sub_ws (s : string) : string := collapse false s.

(** Python truthiness of a [str]. *)
Definition truthy (s : string) : bool :=
  match s with EmptyString => false | _ => true end.

(** [sep.join(parts)] *)
Fixpoint join (sep : string) (parts : list string) : string :=
  match parts with
  | [] => ""
  | [p] => p
  | p :: rest => p +:+ sep +:+ join sep rest
  end.

(** [l[:n]] on a list, with Python's reading of a negative bound. *)
Definition slice_list {A} (n : Z) (l : list A) : list A :=
  if 0 <=? n then list.take (Z.to_nat n) l
  else list.take (Z.to_nat (Z.of_nat (length l) + n)) l.

End PyStr.

(** ** Python [dict] with insertion order *)

Module Dict.

Section Dict.
Context {V : Type}.

(** [d[k] = v]: an existing key keeps its position, a new key goes
    to the end. *)
Fixpoint set (k : string) (v : V) (d : list (string * V))
  : list (string * V) :=
  match d with
  | [] => [(k, v)]
  | (k', v') :: r =>
      if decide (k = k') then (k, v) :: r else (k', v') :: set k v r
  end.

(** The keys of a [dict] are pairwise distinct. *)
Definition wf (d : list (string * V)) : Prop := NoDup d.*1.
End Dict.

End Dict.

(** ** [osyllabi/generator/resource/manager.py] *)

Module ResourceManager.

(** One collected resource: the [data] mapping stored under a url or a
    path.  [title] and [content] may be absent; [extra] stands for the
    remaining keys, which the manager never reads. *)
Record Resource : Type := {
  title : option string;
  content : option string;
  extra : gmap string string
}.

Record Metadata : Type := { keywords : option (list string) }.

(** The [resources] mapping.  Each of its four keys may be absent. *)
Record ResourceSet : Type := {
  urls : option (list (string * Resource));
  files : option (list (string * Resource));
  stats : option (gmap string Z);
  metadata : option Metadata
}.

(** [resources.get("urls", {})], [resources.get("files", {})] *)
Definition urls_of (r : ResourceSet) : list (string * Resource) :=
  default [] (urls r).
Definition files_of (r : ResourceSet) : list (string * Resource) :=
  default [] (files r).

(** [data.get("content", "")] *)
Definition get_content (data : Resource) : string :=
  default "" (content data).

(** [data["content"] = c] *)
Definition set_content (c : string) (data : Resource) : Resource :=
  {| title := title data; content := Some c; extra := extra data |}.

Definition len (s : string) : Z := Z.of_nat (String.length s).

(** The signature of lines 175-176 and 191-192:
    [content[:100].strip().lower()], then [re.sub(r'\s+', ' ', ...)]. *)
Definition signature (content : string) : string :=
  PyStr.re_sub_ws (PyStr.lower (PyStr.strip (PyStr.slice_to 100 content))).

(** The signature in the specification's order: the first 100
    characters, lowercased, runs of whitespace collapsed, then trimmed. *)
Definition signature_spec (content : string) : string :=
  PyStr.strip (PyStr.re_sub_ws (PyStr.lower (PyStr.slice_to 100 content))).

(** One of the two loops of [_deduplicate_resources], over the items
    still to visit, with the [unique] mapping and the set of signatures
    built so far. *)
Fixpoint dedup_loop (items : list (string * Resource))
    (unique : list (string * Resource)) (signatures : gset string)
  : list (string * Resource) :=
  match items with
  | [] => unique
  | (key, data) :: rest =>
      let content := get_content data in
      if negb (PyStr.truthy content) then dedup_loop rest unique signatures
      else
        let sg := signature content in
        if decide (sg ∈ signatures) then dedup_loop rest unique signatures
        else dedup_loop rest (Dict.set key data unique) ({[sg]} ∪ signatures)
  end.

(** [_deduplicate_resources]: what the call returns or raises, and the
    [resources] object after the call.  [resources["urls"]] and
    [resources["files"]] are assigned first; [resources["stats"]] is then
    subscripted, so that a [resources] without that key raises [KeyError]
    with its two mappings already replaced.  The call returns the object
    it was passed. *)
Definition _deduplicate_resources (resources : ResourceSet)
  : result ResourceSet * ResourceSet :=
  let unique_urls := dedup_loop (urls_of resources) [] ∅ in
  let unique_files := dedup_loop (files_of resources) [] ∅ in
  let urls_removed :=
    Z.of_nat (length (urls_of resources)) - Z.of_nat (length unique_urls) in
  let files_removed :=
    Z.of_nat (length (files_of resources)) - Z.of_nat (length unique_files) in
  match stats resources with
  | None =>
      (Raise (KeyError "stats"),
       {| urls := Some unique_urls; files := Some unique_files;
          stats := None; metadata := metadata resources |})
  | Some st =>
      let updated :=
        {| urls := Some unique_urls;
           files := Some unique_files;
           stats := Some (<["duplicates_removed" :=
                              urls_removed + files_removed]> st);
           metadata := metadata resources |} in
      (Ok updated, updated)
  end.

Definition truncation_suffix : string := "... [content truncated]".

(** The body of each loop of [_truncate_content] on one [data]. *)
Definition truncate_resource (max_content_length : Z) (data : Resource)
  : Resource :=
  let content := get_content data in
  if max_content_length <? len content
  then set_content
         (PyStr.slice_to max_content_length content +:+ truncation_suffix)
         data
  else data.

Definition truncate_items (max_content_length : Z)
    (items : list (string * Resource)) : list (string * Resource) :=
  prod_map id (truncate_resource max_content_length) <$> items.

(** [_truncate_content]: every [data] is updated in place; a missing
    [urls] or [files] key stays missing. *)
Definition _truncate_content (max_content_length : Z)
    (resources : ResourceSet) : ResourceSet :=
  {| urls := truncate_items max_content_length <$> urls resources;
     files := truncate_items max_content_length <$> files resources;
     stats := stats resources;
     metadata := metadata resources |}.

(** The post-processing of [process_sources], lines 80-84. *)
Definition post_process (max_content_length : Z) (deduplicate : bool)
    (resources : ResourceSet) : result ResourceSet :=
  if deduplicate then
    match (_deduplicate_resources resources).1 with
    | Ok r => Ok (_truncate_content max_content_length r)
    | Raise e => Raise e
    end
  else Ok (_truncate_content max_content_length resources).

Definition nl : string := String "010"%char "".

(** One [### title / content] block of [extract_context]. *)
Definition format_entry (default_title : string) (data : Resource)
  : string :=
  let title := default default_title (title data) in
  let content := get_content data in
  let content :=
    if 500 <? len content then PyStr.slice_to 500 content +:+ "..."
    else content in
  "### " +:+ title +:+ nl +:+ content +:+ nl.

(** A step of a method body that reads the object it was passed and
    leaves it as it is. *)
Definition reads {S A : Type} (f : S → A) (s : S) : A * S := (f s, s).

Section ExtractContext.
(** [Path(p).name], from [pathlib]. *)
Variable path_name : string → string.

Definition url_parts (resources : ResourceSet) (max_items : Z)
  : list string :=
  let urls := urls_of resources in
  match urls with
  | [] => []
  | _ => ("## Web Resources" +:+ nl)
         :: ((λ kv, format_entry kv.1 kv.2)
               <$> PyStr.slice_list max_items urls)
  end.

Definition file_parts (resources : ResourceSet) (max_items : Z)
  : list string :=
  let files := files_of resources in
  match files with
  | [] => []
  | _ => ("## Local Resources" +:+ nl)
         :: ((λ kv, format_entry (path_name kv.1) kv.2)
               <$> PyStr.slice_list max_items files)
  end.

(** [resources.get("metadata", {}).get("keywords", [])] *)
Definition keywords_of (resources : ResourceSet) : list string :=
  match metadata resources with
  | Some m => default [] (keywords m)
  | None => []
  end.

Definition keyword_parts (resources : ResourceSet) : list string :=
  match keywords_of resources with
  | [] => []
  | kws => ["## Keywords" +:+ nl
            +:+ PyStr.join ", " (PyStr.slice_list 20 kws)]
  end.

Definition extract_context (resources : ResourceSet) (topic : string)
    (max_items : Z) : string :=
  let context_parts :=
    url_parts resources max_items ++ file_parts resources max_items
    ++ keyword_parts resources in
  PyStr.join (nl +:+ nl) context_parts.

(** The call as the caller sees it: the returned text and the
    [resources] object after the call.  The three blocks of the body
    are run one after the other on the object; each of them only reads
    ([get], [items], slices, [len]): none assigns into [resources] or
    into a [data]. *)
Definition extract_context_call (resources : ResourceSet)
    (topic : string) (max_items : Z) : string * ResourceSet :=
  let '(web, r1) := reads (λ r, url_parts r max_items) resources in
  let '(local, r2) := reads (λ r, file_parts r max_items) r1 in
  let '(kws, r3) := reads keyword_parts r2 in
  (PyStr.join (nl +:+ nl) (web ++ local ++ kws), r3).
End ExtractContext.

End ResourceManager.

(** ** [osyllabi/rag/engine.py] *)

Module RAGEngine.

Abbreviation embedding := (list Q).
Abbreviation path := (list string).

(** [str(e)] of a caught exception. *)
Definition exn_str (e : exn) : string :=
  match e with
  | KeyError k => "'" +:+ k +:+ "'"
  | RuntimeError m => m
  | FileNotFoundError m => m
  end.

(** *** The vector store *)

Record VectorRecord : Type := {
  rec_text : string;
  rec_embedding : embedding;
  rec_metadata : gmap string string;
  rec_source : option string
}.

(** Modelled from the spec: the class [VectorDatabase] of
    [osyllabi/rag/database.py], which is not among the sources.  The
    store keeps its records in insertion order and counts the documents
    added. *)
Record VectorDatabase : Type := {
  documents : Z;
  records : list VectorRecord
}.

Definition empty_db : VectorDatabase := {| documents := 0; records := [] |}.

Record SearchResult : Type := {
  chunk_text : string;
  score : Q;
  res_metadata : gmap string string;
  res_source : option string
}.

(** [source_filter]: one source id or a list of ids. *)
Inductive SourceFilter : Type :=
  | OneSource (s : string)
  | AnyOf (l : list string).

(** Modelled from the spec: a candidate passes the filter when its
    [metadata.source] is the given id, or one of the given ids. *)
Definition matches_filter (f : option SourceFilter) (r : VectorRecord)
  : bool :=
  match f with
  | None => true
  | Some (OneSource s) => bool_decide (rec_metadata r !! "source" = Some s)
  | Some (AnyOf l) =>
      match rec_metadata r !! "source" with
      | Some s => bool_decide (s ∈ l)
      | None => false
      end
  end.

(** Modelled from the spec: the ranking of [VectorDatabase.search].
    Insertion into a list ranked by descending score; among equal scores
    the inserted result comes first. *)
Fixpoint insert_ranked (x : SearchResult) (l : list SearchResult)
  : list SearchResult :=
  match l with
  | [] => [x]
  | y :: r =>
      if Qle_bool (score y) (score x) then x :: y :: r
      else y :: insert_ranked x r
  end.

(** Modelled from the spec: descending by score, ties in insertion
    order (the record added earlier first). *)
Definition rank (l : list SearchResult) : list SearchResult :=
  foldr insert_ranked [] l.

(** All embeddings of the list have one length. *)
Definition same_dimension (es : list embedding) : bool :=
  match es with
  | [] => true
  | e :: rest => forallb (λ e', Nat.eqb (length e') (length e)) rest
  end.

(** Modelled from the spec: [VectorDatabase.add_document].  Chunk and
    embedding counts must agree and all embeddings of the store must
    have one dimension; otherwise the call fails.  The ids returned are
    the positions of the new records. *)
Definition db_add_document (chunks : list string)
    (embeddings : list embedding) (metadata : gmap string string)
    (source : option string) (db : VectorDatabase)
  : result (list Z * VectorDatabase) :=
  if negb (Nat.eqb (length chunks) (length embeddings)) then
    Raise (RuntimeError "chunks and embeddings differ in number")
  else if negb (same_dimension
                  (embeddings ++ (rec_embedding <$> records db))) then
    Raise (RuntimeError "embedding dimension mismatch")
  else
    let new :=
      (λ ce, {| rec_text := ce.1; rec_embedding := ce.2;
                rec_metadata := metadata; rec_source := source |})
        <$> zip chunks embeddings in
    let first := Z.of_nat (length (records db)) in
    Ok ((λ i, first + Z.of_nat i) <$> seq 0 (length chunks),
        {| documents := documents db + 1; records := records db ++ new |}).

Section Search.
(** The similarity of two embeddings (cosine similarity, from
    [osyllabi/utils/vector/operations.py], not among the sources). *)
Variable similarity : embedding → embedding → Q.

Definition to_result (q : embedding) (r : VectorRecord) : SearchResult :=
  {| chunk_text := rec_text r;
     score := similarity q (rec_embedding r);
     res_metadata := rec_metadata r;
     res_source := rec_source r |}.

(** Modelled from the spec: [VectorDatabase.search].  The candidates
    are the records that pass [source_filter]; they are scored and
    ranked, those below [threshold] are left out, and at most [top_k]
    remain.  [top_k] is a count of results, hence a natural number. *)
Definition search (query_embedding : embedding) (top_k : nat)
    (threshold : Q) (source_filter : option SourceFilter)
    (db : VectorDatabase) : list SearchResult :=
  let candidates := filter (matches_filter source_filter) (records db) in
  let ranked := rank (to_result query_embedding <$> candidates) in
  take top_k (filter (λ r, Qle_bool threshold (score r)) ranked).
End Search.

(** *** The engine and its surroundings *)

Record RunConfig : Type := {
  cfg_run_id : string;
  cfg_embedding_model : string;
  cfg_chunk_size : Z;
  cfg_chunk_overlap : Z;
  cfg_created_at : Q
}.

(** The content of a [metadata.json] sidecar as [json.load] returns it:
    a mapping in which any of the five keys may be absent. *)
Record ConfigJson : Type := {
  j_run_id : option string;
  j_embedding_model : option string;
  j_chunk_size : option Z;
  j_chunk_overlap : option Z;
  j_created_at : option Q
}.

Definition json_dump (c : RunConfig) : ConfigJson :=
  {| j_run_id := Some (cfg_run_id c);
     j_embedding_model := Some (cfg_embedding_model c);
     j_chunk_size := Some (cfg_chunk_size c);
     j_chunk_overlap := Some (cfg_chunk_overlap c);
     j_created_at := Some (cfg_created_at c) |}.

(** What the engine finds around it: whether Ollama answers, the working
    directory, the clock, and the files under the run directories. *)
Record World : Type := {
  ollama_available : bool;
  cwd : path;
  now : Q;
  vector_dbs : gmap path VectorDatabase;
  sidecars : gmap path ConfigJson
}.

(** A call to the embedding provider. *)
Inductive ProviderCall : Type :=
  | EmbedTexts (texts : list string)
  | EmbedText (text : string).

(** The attributes of a [RAGEngine] object.  [stats] is an attribute
    that [__init__] does not create: only [purge] assigns it.
    [provider_calls] is not an attribute: it records the round trips to
    the embedding provider made through this object. *)
Record Engine : Type := {
  run_id : string;
  base_dir : path;
  vector_dir : path;
  vector_db : VectorDatabase;
  embedder : string;
  chunker : Z * Z;
  config : RunConfig;
  stats : option (gmap string Z);
  provider_calls : list ProviderCall
}.

Definition with_vector_db (db : VectorDatabase) (e : Engine) : Engine :=
  {| run_id := run_id e; base_dir := base_dir e; vector_dir := vector_dir e;
     vector_db := db; embedder := embedder e; chunker := chunker e;
     config := config e; stats := stats e;
     provider_calls := provider_calls e |}.

Definition with_stats (s : option (gmap string Z)) (e : Engine) : Engine :=
  {| run_id := run_id e; base_dir := base_dir e; vector_dir := vector_dir e;
     vector_db := vector_db e; embedder := embedder e; chunker := chunker e;
     config := config e; stats := s;
     provider_calls := provider_calls e |}.

Definition with_call (c : ProviderCall) (e : Engine) : Engine :=
  {| run_id := run_id e; base_dir := base_dir e; vector_dir := vector_dir e;
     vector_db := vector_db e; embedder := embedder e; chunker := chunker e;
     config := config e; stats := stats e;
     provider_calls := provider_calls e ++ [c] |}.

(** [self.stats[k] = self.stats.get(k, 0) + n], under
    [if hasattr(self, 'stats')]. *)
Definition bump (k : string) (n : Z) (s : option (gmap string Z))
  : option (gmap string Z) :=
  match s with
  | Some m => Some (<[k := default 0 (m !! k) + n]> m)
  | None => None
  end.

(** [int(x)] of a float: truncation towards zero. *)
Definition int_of (x : Q) : Z := Z.quot (Qnum x) (Z.pos (Qden x)).

(** Modelled from the spec: [check_for_ollama] of
    [osyllabi/utils/utils.py], which is not among the sources.  The
    docstrings of [__init__] and [load] say that a [RuntimeError] is
    raised when Ollama is not available. *)
Definition check_for_ollama (raise_error : bool) (w : World) : result bool :=
  if ollama_available w then Ok true
  else if raise_error
       then Raise (RuntimeError "Ollama is not available")
       else Ok false.

(** [RAGEngine.__init__].  A [base_dir] that is given is taken as a
    [Path]; the clock is read once. *)
Definition __init__ (run_id : option string) (base_dir : option path)
    (embedding_model : string) (chunk_size chunk_overlap : Z) (w : World)
  : result (Engine * World) :=
  match check_for_ollama true w with
  | Raise e => Raise e
  | Ok _ =>
      let rid :=
        match run_id with
        | Some s => if PyStr.truthy s then s else pretty (int_of (now w))
        | None => pretty (int_of (now w))
        end in
      let base :=
        match base_dir with
        | Some p => p
        | None => cwd w ++ ["output"; rid]
        end in
      let vdir := base ++ ["vectors"] in
      let db_path := vdir ++ ["vector.db"] in
      let db := default empty_db (vector_dbs w !! db_path) in
      let cfg :=
        {| cfg_run_id := rid; cfg_embedding_model := embedding_model;
           cfg_chunk_size := chunk_size; cfg_chunk_overlap := chunk_overlap;
           cfg_created_at := now w |} in
      Ok ({| run_id := rid; base_dir := base; vector_dir := vdir;
             vector_db := db; embedder := embedding_model;
             chunker := (chunk_size, chunk_overlap);
             config := cfg; stats := None; provider_calls := [] |},
          {| ollama_available := ollama_available w; cwd := cwd w;
             now := now w;
             vector_dbs := <[db_path := db]> (vector_dbs w);
             sidecars :=
               <[vdir ++ ["metadata.json"] := json_dump cfg]> (sidecars w) |})
  end.

(** [RAGEngine.load].  The [check_for_ollama()] of line 256 passes no
    [raise_error]; its default is a parameter. *)
Definition load (raise_error_default : bool) (run_id : string)
    (base_dir : option path) (w : World) : result (Engine * World) :=
  match check_for_ollama raise_error_default w with
  | Raise e => Raise e
  | Ok _ =>
      let base_path :=
        match base_dir with
        | Some p => p
        | None => cwd w ++ ["output"]
        end in
      let run_dir := base_path ++ [run_id] in
      if negb (bool_decide
                 (is_Some (vector_dbs w !! (run_dir ++ ["vectors"; "vector.db"]))))
      then Raise (FileNotFoundError ("No RAG data found for run " +:+ run_id))
      else
        match sidecars w !! (run_dir ++ ["vectors"; "metadata.json"]) with
        | Some cfg =>
            __init__ (Some run_id) base_dir
              (default "llama3" (j_embedding_model cfg))
              (default 512 (j_chunk_size cfg))
              (default 50 (j_chunk_overlap cfg)) w
        | None => __init__ (Some run_id) base_dir "llama3.1:latest" 512 50 w
        end
  end.

Section Engine.
(** The collaborators that are not among the sources: the chunker
    ([TextChunker.chunk_text], by chunk size, overlap and text), the
    embedding provider ([EmbeddingGenerator], by model name) and the
    similarity of the vector store. *)
Variable chunk_text : Z → Z → string → list string.
Variable embed_text : string → string → result embedding.
Variable embed_texts : string → list string → result (list embedding).
Variable get_embedding_dimension : string → Z.
Variable similarity : embedding → embedding → Q.

(** [RAGEngine.add_document]: the returned value or the exception,
    and the engine after the call. *)
Definition add_document (text : string)
    (metadata : option (gmap string string)) (source : option string)
    (e : Engine) : result Z * Engine :=
  if negb (PyStr.truthy text) || negb (PyStr.truthy (PyStr.strip text))
  then (Ok 0, e)
  else
    let doc_metadata := default ∅ metadata in
    let doc_metadata :=
      match source with
      | Some s => if PyStr.truthy s then <["source" := s]> doc_metadata
                  else doc_metadata
      | None => doc_metadata
      end in
    let chunks := chunk_text (chunker e).1 (chunker e).2 text in
    match chunks with
    | [] => (Ok 0, e)
    | _ =>
        let e1 := with_call (EmbedTexts chunks) e in
        match embed_texts (embedder e) chunks with
        | Raise err =>
            (Raise (RuntimeError
                      ("Failed to generate embeddings for document: "
                       +:+ exn_str err)), e1)
        | Ok embeddings =>
            match db_add_document chunks embeddings doc_metadata source
                    (vector_db e1) with
            | Raise err =>
                (Raise (RuntimeError
                          ("Failed to add document to database: "
                           +:+ exn_str err)), e1)
            | Ok (_, db) =>
                let n := Z.of_nat (length chunks) in
                let s := bump "chunks_added" n
                           (bump "documents_added" 1 (stats e1)) in
                (Ok n, with_stats s (with_vector_db db e1))
            end
        end
    end.

(** [RAGEngine.retrieve] *)
Definition retrieve (query : string) (top_k : nat) (threshold : Q)
    (source_filter : option SourceFilter) (e : Engine)
  : result (list SearchResult) * Engine :=
  let e1 := with_call (EmbedText query) e in
  match embed_text (embedder e) query with
  | Raise err =>
      (Raise (RuntimeError
                ("Failed to generate embedding for query: "
                 +:+ exn_str err)), e1)
  | Ok query_embedding =>
      let results :=
        search similarity query_embedding top_k threshold source_filter
          (vector_db e1) in
      (Ok results, with_stats (bump "queries_performed" 1 (stats e1)) e1)
  end.

Record Stats : Type := {
  st_run_id : string;
  document_count : Z;
  chunk_count : Z;
  st_embedding_model : string;
  st_chunk_size : Z;
  embedding_dimension : Z;
  created_at : Q;
  query_count : Z
}.

(** [RAGEngine.get_stats] *)
Definition get_stats (e : Engine) : Stats :=
  {| st_run_id := run_id e;
     document_count := documents (vector_db e);
     chunk_count := Z.of_nat (length (records (vector_db e)));
     st_embedding_model := cfg_embedding_model (config e);
     st_chunk_size := cfg_chunk_size (config e);
     embedding_dimension := get_embedding_dimension (embedder e);
     created_at := cfg_created_at (config e);
     query_count :=
       match stats e with
       | Some s => default 0 (s !! "queries_performed")
       | None => 0
       end |}.

(** [RAGEngine.purge] *)
Definition purge (e : Engine) : Engine :=
  with_stats
    (Some (<["documents_added" := 0]>
             (<["chunks_added" := 0]>
                (<["queries_performed" := 0]> (∅ : gmap string Z)))))
    (with_vector_db empty_db e).

(** Calls of [retrieve], one per query, one after the other; the
    first failure stops the run.  The boolean tells whether every call
    returned. *)
Fixpoint retrieve_many (queries : list string) (top_k : nat)
    (threshold : Q) (source_filter : option SourceFilter) (e : Engine)
  : bool * Engine :=
  match queries with
  | [] => (true, e)
  | q :: rest =>
      match retrieve q top_k threshold source_filter e with
      | (Ok _, e') => retrieve_many rest top_k threshold source_filter e'
      | (Raise _, e') => (false, e')
      end
  end.
End Engine.

End RAGEngine.

(** ** What the specification asks of the two stages *)

Module ResourceSpec.
Import ResourceManager.

(** The entries a loop of [_deduplicate_resources] appends, in order,
    when it starts from the signatures in [signatures]. *)
Fixpoint first_seen (signatures : gset string)
    (items : list (string * Resource)) : list (string * Resource) :=
  match items with
  | [] => []
  | (key, data) :: rest =>
      let content := get_content data in
      if negb (PyStr.truthy content) then first_seen signatures rest
      else
        let sg := signature content in
        if decide (sg ∈ signatures) then first_seen signatures rest
        else (key, data) :: first_seen ({[sg]} ∪ signatures) rest
  end.

(** [data], found at position [i] of [items], has content, and no
    entry before it that has content has its signature. *)
Definition first_of_signature (items : list (string * Resource))
    (i : nat) (data : Resource) : Prop :=
  get_content data ≠ "" ∧
  ∀ j kd, (j < i)%nat → items !! j = Some kd →
    get_content kd.2 ≠ "" →
    signature_spec (get_content kd.2) ≠ signature_spec (get_content data).

(** [out] is [items] deduplicated: the order is kept, and an entry
    stays exactly when it is the first of its signature. *)
Definition deduplicated (items out : list (string * Resource)) : Prop :=
  out `sublist_of` items ∧
  ∀ i key data, items !! i = Some (key, data) →
    ((key, data) ∈ out ↔ first_of_signature items i data).

(** What truncation with limit [m] may do to one resource. *)
Definition truncation_ok (m : Z) (d d' : Resource) : Prop :=
  len (get_content d') ≤ m + len truncation_suffix ∧
  (len (get_content d) ≤ m → d' = d) ∧
  (m < len (get_content d) →
   len (get_content d') = m + len truncation_suffix).

Definition truncated (m : Z) (items items' : list (string * Resource))
  : Prop :=
  Forall2 (λ kd kd', kd'.1 = kd.1 ∧ truncation_ok m kd.2 kd'.2)
    items items'.

(** The truncation property for one limit and one [resources]. *)
Definition truncation_holds (m : Z) (r : ResourceSet) : Prop :=
  truncated m (urls_of r) (urls_of (_truncate_content m r)) ∧
  truncated m (files_of r) (files_of (_truncate_content m r)).

(** Every entry of both namespaces has content. *)
Definition no_empty_content (r : ResourceSet) : Prop :=
  Forall (λ kd, get_content kd.2 ≠ "") (urls_of r) ∧
  Forall (λ kd, get_content kd.2 ≠ "") (files_of r).

(** [r.stats["duplicates_removed"]] *)
Definition duplicates_removed (r : ResourceSet) : option Z :=
  stats r ≫= (λ st, st !! "duplicates_removed").
End ResourceSpec.

Module RAGSpec.
Import RAGEngine.

(** Descending by score. *)
Definition descending (l : list SearchResult) : Prop :=
  StronglySorted (λ a b, (score b <= score a)%Q) l.

(** The store with only the records that pass the filter. *)
Definition restrict (f : option SourceFilter) (db : VectorDatabase)
  : VectorDatabase :=
  {| documents := documents db;
     records := filter (matches_filter f) (records db) |}.

(** [stats.get(k, 0)] on an engine whose [stats] exists; [None] when the
    attribute does not exist. *)
Definition counter (k : string) (e : Engine) : option Z :=
  (λ m : gmap string Z, default 0 (m !! k)) <$> stats e.

(** The path of the persisted store and of the sidecar that [load]
    looks at. *)
Definition store_path (run_id : string) (base_dir : option path) (w : World)
  : path :=
  (default (cwd w ++ ["output"]) base_dir ++ [run_id])
    ++ ["vectors"; "vector.db"].
Definition sidecar_path (run_id : string) (base_dir : option path)
    (w : World) : path :=
  (default (cwd w ++ ["output"]) base_dir ++ [run_id])
    ++ ["vectors"; "metadata.json"].
End RAGSpec.

(** ** Sample inputs *)

Module Samples.
Import ResourceManager RAGEngine.

Definition resource (c : string) : Resource :=
  {| title := None; content := Some c; extra := ∅ |}.

(** Three urls, the second a near-duplicate of the first and the third
    without content, and one file with the content of the first url. *)
Definition collected : ResourceSet :=
  {| urls := Some [("https://a.example", resource "Hello   World");
                   ("https://b.example", resource " hello world");
                   ("https://c.example", resource "")];
     files := Some [("notes.txt", resource "Hello   World")];
     ResourceManager.stats := Some ∅;
     metadata := Some {| keywords := Some ["hello"; "world"] |} |}.

(** The same resources in a mapping that has no ["stats"] key. *)
Definition without_stats : ResourceSet :=
  {| urls := urls collected; files := files collected;
     ResourceManager.stats := None; metadata := metadata collected |}.

Definition one_url : ResourceSet :=
  {| urls := Some [("https://a.example", resource "hello")];
     files := None; ResourceManager.stats := Some ∅; metadata := None |}.

(** [collected] after one deduplication pass. *)
Definition collected_once : ResourceSet :=
  {| urls := Some [("https://a.example", resource "Hello   World")];
     files := Some [("notes.txt", resource "Hello   World")];
     ResourceManager.stats := Some {["duplicates_removed" := 2]};
     metadata := Some {| keywords := Some ["hello"; "world"] |} |}.

(** A chunker that returns the text as its only chunk. *)
Definition one_chunk (chunk_size overlap : Z) (text : string) : list string :=
  [text].

(** A provider that embeds a text by its length, and one that fails. *)
Definition embed_by_length (model text : string) : result embedding :=
  Ok [inject_Z (Z.of_nat (String.length text)); 1%Q].
Definition embed_all_by_length (model : string) (texts : list string)
  : result (list embedding) :=
  Ok ((λ t, [inject_Z (Z.of_nat (String.length t)); 1%Q]) <$> texts).
Definition embed_all_failing (model : string) (texts : list string)
  : result (list embedding) :=
  Raise (RuntimeError "connection refused").

Definition dimension_two (model : string) : Z := 2.

(** A similarity for the samples: the closer the first coordinates, the
    higher the score. *)
Definition closeness (a b : embedding) : Q :=
  match a, b with
  | x :: _, y :: _ => (1 / (1 + Qabs (x - y)))%Q
  | _, _ => 0%Q
  end.

Definition run1_store : path := ["home"; "output"; "run1"; "vectors"; "vector.db"].
Definition run1_sidecar : path :=
  ["home"; "output"; "run1"; "vectors"; "metadata.json"].

Definition run1_json : ConfigJson :=
  {| j_run_id := Some "run1";
     j_embedding_model := Some "nomic-embed-text";
     j_chunk_size := Some 256;
     j_chunk_overlap := Some 32;
     j_created_at := Some (inject_Z 1690000000) |}.

(** A machine on which Ollama answers and run ["run1"] was created. *)
Definition world : World :=
  {| ollama_available := true;
     cwd := ["home"];
     now := (3400000001 # 2)%Q;
     vector_dbs := {[run1_store := empty_db]};
     sidecars := {[run1_sidecar := run1_json]} |}.

(** The same machine while Ollama does not answer. *)
Definition offline_world : World :=
  {| ollama_available := false;
     cwd := cwd world; now := now world;
     vector_dbs := vector_dbs world; sidecars := sidecars world |}.

(** The engine that [RAGEngine(run_id="run2")] constructs in [world]. *)
Definition fresh_engine : Engine :=
  {| run_id := "run2";
     base_dir := ["home"; "output"; "run2"];
     vector_dir := ["home"; "output"; "run2"; "vectors"];
     vector_db := empty_db;
     embedder := "llama3.1:latest";
     chunker := (512, 50);
     config := {| cfg_run_id := "run2";
                  cfg_embedding_model := "llama3.1:latest";
                  cfg_chunk_size := 512; cfg_chunk_overlap := 50;
                  cfg_created_at := (3400000001 # 2)%Q |};
     RAGEngine.stats := None;
     provider_calls := [] |}.

(** [fresh_engine] with two chunks stored, one per source. *)
Definition stocked_engine : Engine :=
  with_vector_db
    {| documents := 2;
       records :=
         [ {| rec_text := "short"; rec_embedding := [5%Q; 1%Q];
              rec_metadata := {["source" := "doc1"]};
              rec_source := Some "doc1" |};
           {| rec_text := "a longer chunk"; rec_embedding := [14%Q; 1%Q];
              rec_metadata := {["source" := "doc2"]};
              rec_source := Some "doc2" |} ] |}
    fresh_engine.
End Samples.

(** ** Characters of a text *)

Module Text.

(** [c in s] for a one-character [c]. *)
Fixpoint occurs (c : ascii) (s : string) : bool :=
  match s with
  | EmptyString => false
  | String c' r => bool_decide (c' = c) || occurs c r
  end.

End Text.

(** ** The callers in [manager.py] *)

Module ManagerCalls.
Import ResourceManager.

(** The attributes of a [ResourceManager] that its methods read and
    write, the collector apart. *)
Record Manager : Type := {
  max_content_length : Z;
  manager_stats : gmap string Z
}.

(** [ResourceManager.__init__] *)
Definition manager_init (max_content_length : Z) : Manager :=
  {| max_content_length := max_content_length;
     manager_stats :=
       <["sources_processed" := 0]>
         (<["total_content_size" := 0]>
            (<["keywords_extracted" := 0]> (∅ : gmap string Z))) |}.

Definition with_manager_stats (s : gmap string Z) (self : Manager) : Manager :=
  {| max_content_length := max_content_length self; manager_stats := s |}.

Section ProcessSources.
(** [ResourceCollector.collect] and [ResourceCollector.get_stats], of
    [osyllabi/generator/resource/collector.py], which is not among the
    sources: the resources collected for the urls and the paths, and the
    collector's own statistics. *)
Variable collect : list string → list string → ResourceSet.
Variable collector_stats : gmap string Z.

(** What line 77 binds to [resources]: the collector's answer for the
    urls and paths, an absent list read as empty. *)
Definition gathered (urls paths : option (list string)) : ResourceSet :=
  collect (default [] urls) (default [] paths).

(** [ResourceManager.process_sources]: what the call returns or raises,
    and the manager after the call.  [extract_keywords] is a parameter
    that the body does not read. *)
Definition process_sources (urls paths : option (list string))
    (extract_keywords deduplicate : bool) (self : Manager)
  : result ResourceSet * Manager :=
  let urls := default [] urls in
  let paths := default [] paths in
  let resources := collect urls paths in
  match (if deduplicate then (_deduplicate_resources resources).1
         else Ok resources) with
  | Raise e => (Raise e, self)
  | Ok resources =>
      let resources := _truncate_content (max_content_length self) resources in
      let s1 :=
        <["sources_processed" :=
            Z.of_nat (length urls) + Z.of_nat (length paths)]>
          (manager_stats self) in
      match stats resources with
      | None => (Raise (KeyError "stats"), with_manager_stats s1 self)
      | Some st =>
          let s2 :=
            <["total_content_size" :=
                default 0 (st !! "total_content_size")]> s1 in
          match metadata resources with
          | None => (Raise (KeyError "metadata"), with_manager_stats s2 self)
          | Some md =>
              let s3 :=
                <["keywords_extracted" :=
                    Z.of_nat (length (default [] (keywords md)))]> s2 in
              (Ok resources, with_manager_stats s3 self)
          end
      end
  end.

(** [ResourceManager.get_stats]: [{**self.stats, **collector_stats}], in
    which the collector's value wins on a shared key. *)
Definition get_stats (self : Manager) : gmap string Z :=
  collector_stats ∪ manager_stats self.
End ProcessSources.

(** [s.replace(a, b)] for one-character [a] and [b]. *)
Fixpoint replace_char (a b : ascii) (s : string) : string :=
  match s with
  | EmptyString => EmptyString
  | String c r =>
      String (if decide (c = a) then b else c) (replace_char a b r)
  end.

(** [f"[{kw}](#{kw.replace(' ', '-')})"] *)
Definition keyword_link (kw : string) : string :=
  "[" +:+ kw +:+ "](#" +:+ replace_char " " "-" kw +:+ ")".

(** One block of the markdown rendering: as [format_entry], without the
    newline at the end. *)
Definition format_entry_md (default_title : string) (data : Resource)
  : string :=
  let title := default default_title (title data) in
  let content := get_content data in
  let content :=
    if 500 <? len content then PyStr.slice_to 500 content +:+ "..."
    else content in
  "### " +:+ title +:+ nl +:+ content.

Section ForPrompt.
(** [Path(p).name], from [pathlib]. *)
Variable path_name : string → string.

(** The three blocks of the branch of [extract_context_for_prompt] that
    is taken when the [markdown] package is found. *)
Definition url_parts_md (resources : ResourceSet) (max_items : Z)
  : list string :=
  let urls := urls_of resources in
  match urls with
  | [] => []
  | _ => "## Web Resources"
         :: ((λ kv, format_entry_md kv.1 kv.2)
               <$> PyStr.slice_list max_items urls)
  end.

Definition file_parts_md (resources : ResourceSet) (max_items : Z)
  : list string :=
  let files := files_of resources in
  match files with
  | [] => []
  | _ => "## Local Resources"
         :: ((λ kv, format_entry_md (path_name kv.1) kv.2)
               <$> PyStr.slice_list max_items files)
  end.

Definition keyword_parts_md (resources : ResourceSet) : list string :=
  match keywords_of resources with
  | [] => []
  | keywords =>
      ["## Keywords" +:+ nl
       +:+ PyStr.join ", " (keyword_link <$> PyStr.slice_list 20 keywords)]
  end.

(** [ResourceCollectionManager.extract_context_for_prompt].  The branch
    taken when the [markdown] package is found builds its own text; the
    other branch, and the [except] clause, fall back to
    [ResourceManager.extract_context]. *)
Definition extract_context_for_prompt (markdown_available : bool)
    (resources : ResourceSet) (topic : string) (max_items : Z) : string :=
  if markdown_available then
    PyStr.join (nl +:+ nl)
      (url_parts_md resources max_items
       ++ file_parts_md resources max_items
       ++ keyword_parts_md resources)
  else extract_context path_name resources topic max_items.
End ForPrompt.

End ManagerCalls.

(** ** [osyllabi/utils/log.py]: the logging context *)

Module Log.

(** The [context] attribute of [_thread_local] as one thread sees it:
    absent until [set_context] creates it.  A value is kept as the text
    that [f'{v}'] gives for it. *)
Abbreviation thread_local := (option (list (string * string))).

(** [getattr(_thread_local, 'context', {})] *)
Definition context_of (tl : thread_local) : list (string * string) :=
  default [] tl.

(** [d.update(other)] *)
Definition update (d other : list (string * string))
  : list (string * string) :=
  foldl (λ acc kv, Dict.set kv.1 kv.2 acc) d other.

(** [d.get(k)] *)
Fixpoint get (k : string) (d : list (string * string)) : option string :=
  match d with
  | [] => None
  | (k', v) :: r => if decide (k = k') then Some v else get k r
  end.

(** [ContextAwareLogger.set_context] *)
Definition set_context (kwargs : list (string * string)) (tl : thread_local)
  : thread_local :=
  Some (update (context_of tl) kwargs).

(** [ContextAwareLogger.clear_context] *)
Definition clear_context (tl : thread_local) : thread_local :=
  match tl with
  | Some _ => Some []
  | None => None
  end.

(** [ContextAwareFilter.filter]: the text it stores in [record.context]. *)
Definition filter_context (tl : thread_local) : string :=
  match context_of tl with
  | [] => "-"
  | context => PyStr.join ", " ((λ kv, kv.1 +:+ "=" +:+ kv.2) <$> context)
  end.

(** [ContextManager.__enter__]: the saved copy, and the context set. *)
Definition enter (kwargs : list (string * string)) (tl : thread_local)
  : list (string * string) * thread_local :=
  (context_of tl, set_context kwargs tl).

(** [ContextManager.__exit__] *)
Definition exit (previous : list (string * string)) (tl : thread_local)
  : thread_local :=
  match tl with
  | Some _ => Some (update [] previous)
  | None => None
  end.

(** What a thread may do to its context: the two calls, and a
    [with log.with_context(...)] block around more of the same. *)
Inductive op : Type :=
  | SetContext (kwargs : list (string * string))
  | ClearContext
  | WithContext (kwargs : list (string * string)) (body : list op).

Fixpoint run (o : op) (tl : thread_local) : thread_local :=
  match o with
  | SetContext kwargs => set_context kwargs tl
  | ClearContext => clear_context tl
  | WithContext kwargs body =>
      let '(previous, entered) := enter kwargs tl in
      exit previous
        ((fix run_all (os : list op) (s : thread_local) : thread_local :=
            match os with
            | [] => s
            | o' :: rest => run_all rest (run o' s)
            end) body entered)
  end.

Definition run_all (os : list op) (tl : thread_local) : thread_local :=
  foldl (λ s o, run o s) tl os.

(** [is_debug_mode], on the value of [OSYLLABI_DEBUG] in the
    environment ([None] when the variable is not set). *)
Definition is_debug_mode (osyllabi_debug : option string) : bool :=
  bool_decide (PyStr.lower (default "" osyllabi_debug) ∈ ["1"; "true"; "yes"]).

End Log.

(** ** [osyllabi/utils/cli/help.py]: the help texts *)

Module Help.

(** [' ' * n] *)
Fixpoint spaces (n : nat) : string :=
  match n with
  | O => ""
  | S n' => String " " (spaces n')
  end.

(** [s.ljust(n)] *)
Definition ljust (n : nat) (s : string) : string :=
  s +:+ spaces (n - String.length s).

(** [s.split('\n')] *)
Fixpoint split_lines (s : string) : list string :=
  match s with
  | EmptyString => [""]
  | String c r =>
      if decide (c = "010"%char) then "" :: split_lines r
      else match split_lines r with
           | [] => [String c ""]
           | line :: lines => String c line :: lines
           end
  end.

(** [max(len(k) for k in keys)]; [None] stands for the [ValueError] that
    [max] raises on an empty sequence. *)
Definition max_len (keys : list string) : option nat :=
  match keys with
  | [] => None
  | k :: ks => Some (foldl Nat.max (String.length k) (String.length <$> ks))
  end.

(** A text between double quotes. *)
Definition quoted (s : string) : string :=
  String "034" s +:+ String "034" "".

(** [get_command_usage_info]: the usage line, the options and the
    examples of a command. *)
Definition get_command_usage_info (command_name : string)
  : string * list (string * string) * list string :=
  let usage := "Usage: osyllabi " +:+ command_name in
  let options :=
    [("--debug",
      "Enable debug mode for detailed logging and error information")] in
  if decide (command_name = "create") then
    (usage +:+ " TOPIC [options]",
     Log.update options
       [("TOPIC", "Main topic or subject for the curriculum (required)");
        ("--title, -t",
         "Custom title for the curriculum (default: '<topic> Curriculum')");
        ("--level, -s",
         "Target skill level (Beginner, Intermediate, Advanced, Expert, Master, Pioneer)");
        ("--links, -l", "URLs to include as resources");
        ("--source",
         "Source files or directories to include" +:+ ResourceManager.nl
         +:+ "Default: current directory");
        ("--export-path, -o", "Directory to export the curriculum");
        ("--format, -f", "Output format (md, pdf, html, docx, json)");
        ("--help, -h", "Display this help message")],
     ["osyllabi create " +:+ quoted "Machine Learning" +:+ " --title "
      +:+ quoted "ML Fundamentals" +:+ " --level Beginner";
      "osyllabi create " +:+ quoted "Python Programming" +:+ " --links "
      +:+ quoted "https://docs.python.org" +:+ " --format pdf";
      "osyllabi create " +:+ quoted "Web Development" +:+ " -t "
      +:+ quoted "Full Stack Web Dev" +:+ " -s Advanced";
      "osyllabi create " +:+ quoted "Data Science" +:+ " --format json";
      "osyllabi create " +:+ quoted "Machine Learning"
      +:+ " --level Master --title " +:+ quoted "Advanced Neural Models"])
  else if decide (command_name = "clean") then
    (usage +:+ " [options]",
     Log.update options
       [("--output-dir", "Clean specific output directory");
        ("--all, -a", "Clean all generated files");
        ("--cache", "Clean only cached files");
        ("--force, -f", "Force clean without confirmation");
        ("--help, -h", "Display this help message")],
     ["osyllabi clean --all";
      "osyllabi clean --output-dir " +:+ quoted "./output" +:+ " --force";
      "osyllabi clean --all --debug"])
  else if decide (command_name = "help") then
    (usage +:+ " [command]",
     Log.update options
       [("command", "Command to get help for");
        ("--help, -h", "Display this help message")],
     ["osyllabi help"; "osyllabi help create"; "osyllabi help --debug"])
  else (usage, options, []).

(** The rows that lines 113-116 print for one option. *)
Definition option_rows (max_opt_len : nat) (opt desc : string)
  : list string :=
  match split_lines desc with
  | [] => []
  | first :: rest =>
      ("  " +:+ ljust max_opt_len opt +:+ "    " +:+ first)
      :: ((λ line, "  " +:+ spaces max_opt_len +:+ "    " +:+ line) <$> rest)
  end.

(** Lines 109-116: the heading and the rows of all options; under
    [if options:] the [max] has something to go through. *)
Definition options_block (command_name : string)
    (options : list (string * string)) : list string :=
  match options with
  | [] => []
  | _ =>
      let max_opt_len := default 0%nat (max_len options.*1) in
      (if negb (bool_decide (command_name = "help"))
       then ResourceManager.nl +:+ "Options:" else ResourceManager.nl +:+ "Arguments:")
      :: (options ≫= λ kv, option_rows max_opt_len kv.1 kv.2)
  end.

(** Lines 118-121. *)
Definition examples_block (examples : list string) : list string :=
  match examples with
  | [] => []
  | _ => (ResourceManager.nl +:+ "Examples:") :: ((λ example, "  " +:+ example) <$> examples)
  end.

(** The order of [sorted(command_descriptions.items())]: the keys of a
    [dict] are distinct, so that two items are told apart by their names
    and the descriptions are not compared. *)
Definition by_name (a b : string * string) : Prop := String.le a.1 b.1.

#[export] Instance by_name_dec : RelDecision by_name.
Proof. intros a b. unfold by_name. apply _. Defined.

(** Lines 133-134. *)
Definition command_rows (max_len : nat)
    (command_descriptions : list (string * string)) : list string :=
  (λ kv, "  " +:+ ljust max_len kv.1 +:+ "    " +:+ kv.2)
    <$> merge_sort by_name command_descriptions.

(** The row shows [text] from column [column] on. *)
Definition placed_at (column : nat) (text row : string) : Prop :=
  ∃ pad, row = pad +:+ text ∧ String.length pad = column.

(** How a call ends: it returns, or the [max] of line 132 raises. *)
Inductive ending : Type := Returns | RaisesValueError.

Section Display.
(** [osyllabi.__version__], and [str.upper]. *)
Variable version : string.
Variable upper : string → string.

(** [display_header]: the texts passed to [print], one per call. *)
Definition display_header : list string :=
  [ResourceManager.nl +:+ "Osyllabi - A Python-powered curriculum designer";
   "Version: " +:+ version +:+ ResourceManager.nl;
   "Generates personalized curriculums using AI, web crawling, and data integration."
   +:+ ResourceManager.nl].

(** [display_command_help]: the texts printed.  For a command without
    description [display_help_for_unknown_command] writes a warning to
    the log and nothing is printed. *)
Definition display_command_help (command_name : string)
    (command_descriptions : list (string * string)) : list string :=
  match Log.get command_name command_descriptions with
  | None => []
  | Some description =>
      let '(usage, options, examples) :=
        get_command_usage_info command_name in
      display_header
      ++ [ResourceManager.nl +:+ "OSYLLABI " +:+ upper command_name;
          ResourceManager.nl +:+ description +:+ ResourceManager.nl;
          usage]
      ++ options_block command_name options
      ++ examples_block examples
  end.

(** [display_general_help]: the texts printed, and how the call ends. *)
Definition display_general_help
    (command_descriptions : list (string * string))
  : list string * ending :=
  let printed :=
    display_header
    ++ ["Usage: osyllabi [options] COMMAND [command-options]";
        ResourceManager.nl +:+ "Commands:"] in
  match max_len command_descriptions.*1 with
  | None => (printed, RaisesValueError)
  | Some max_len =>
      (printed
       ++ command_rows max_len command_descriptions
       ++ [ResourceManager.nl +:+ "Global Options:";
           "  --help, -h         Display help for a command";
           "  --debug            Enable debug mode for detailed logging and error information";
           ResourceManager.nl +:+ "Run 'osyllabi <command> --help' for more information on a specific command."],
       Returns)
  end.
End Display.

End Help.

(** ** More sample inputs *)

Module ExtraSamples.
Import ResourceManager RAGEngine ManagerCalls.

(** Two urls that differ in their fifth character only. *)
Definition two_close : ResourceSet :=
  {| urls := Some [("https://a.example", Samples.resource "abcdX");
                   ("https://b.example", Samples.resource "abcdY")];
     files := None; ResourceManager.stats := Some ∅; metadata := None |}.

(** Two urls whose contents are blank but not empty, and differ. *)
Definition two_blank : ResourceSet :=
  {| urls := Some [("https://a.example", Samples.resource " ");
                   ("https://b.example", Samples.resource "   ")];
     files := None; ResourceManager.stats := Some ∅; metadata := None |}.

(** A collector that answers every request with [Samples.collected],
    and one whose answer has no ["metadata"] key. *)
Definition collect_sample (urls paths : list string) : ResourceSet :=
  Samples.collected.
Definition collect_bare (urls paths : list string) : ResourceSet :=
  Samples.one_url.

(** [ResourceManager(max_content_length=10)] after
    [process_sources(urls=["https://a.example"])] with that collector. *)
Definition manager_after : Manager :=
  with_manager_stats
    (<["keywords_extracted" := 2]>
       (<["total_content_size" := 0]>
          (<["sources_processed" := 1]> (manager_stats (manager_init 10)))))
    (manager_init 10).

(** A provider that cannot embed a query. *)
Definition embed_failing (model text : string) : result embedding :=
  Raise (RuntimeError "connection refused").

(** The machine of [Samples.world] at another time. *)
Definition at_time (t : Q) (w : World) : World :=
  {| ollama_available := ollama_available w; cwd := cwd w; now := t;
     vector_dbs := vector_dbs w; sidecars := sidecars w |}.

End ExtraSamples.

(** * Properties *)

(** ** Strings *)

Module PyStrFacts.
Import PyStr.

Lemma isspace_lower_char c : isspace (lower_char c) = isspace c.
Proof. destruct c as [[] [] [] [] [] [] [] []]; reflexivity. Qed.

Lemma isspace_space : isspace " "%char = true.
Proof. reflexivity. Qed.

Lemma all_space_lower s : all_space (lower s) = all_space s.
Proof.
  induction s as [|c r IH]; simpl; [done|].
  by rewrite isspace_lower_char, IH.
Qed.

Lemma lstrip_lower s : lstrip (lower s) = lower (lstrip s).
Proof.
  induction s as [|c r IH]; simpl; [done|].
  rewrite isspace_lower_char. by destruct (isspace c).
Qed.

Lemma rstrip_lower s : rstrip (lower s) = lower (rstrip s).
Proof.
  induction s as [|c r IH]; simpl; [done|].
  rewrite isspace_lower_char, all_space_lower.
  destruct (isspace c && all_space r); simpl; [done|]. by rewrite IH.
Qed.

Lemma strip_lower s : strip (lower s) = lower (strip s).
Proof. unfold strip. by rewrite lstrip_lower, rstrip_lower. Qed.

Lemma all_space_collapse b s : all_space (collapse b s) = all_space s.
Proof.
  revert b. induction s as [|c r IH]; intros b; simpl; [done|].
  destruct (isspace c) eqn:Hc; simpl.
  - destruct b; simpl; [apply IH|]. by rewrite IH.
  - by rewrite Hc.
Qed.

Lemma rstrip_all_space s : all_space s = true → rstrip s = "".
Proof.
  destruct s as [|c r]; simpl; [done|]. by intros ->.
Qed.

Lemma rstrip_empty_iff s : rstrip s = "" ↔ all_space s = true.
Proof.
  split; [|apply rstrip_all_space].
  destruct s as [|c r]; simpl; [done|].
  by destruct (isspace c && all_space r).
Qed.

Lemma collapse_rstrip b s : collapse b (rstrip s) = rstrip (collapse b s).
Proof.
  revert b. induction s as [|c r IH]; intros b; simpl; [done|].
  destruct (isspace c) eqn:Hc; simpl.
  - destruct (all_space r) eqn:Hr; simpl.
    + symmetry. apply rstrip_all_space.
      destruct b; simpl; by rewrite all_space_collapse.
    + rewrite Hc. destruct b; simpl; [apply IH|].
      by rewrite all_space_collapse, Hr, IH.
  - by rewrite Hc, IH.
Qed.

Lemma lstrip_collapse_flag s :
  lstrip (collapse true s) = lstrip (collapse false s).
Proof.
  destruct s as [|c r]; simpl; [done|]. by destruct (isspace c).
Qed.

Lemma collapse_lstrip s :
  collapse false (lstrip s) = lstrip (collapse false s).
Proof.
  induction s as [|c r IH]; simpl; [done|].
  destruct (isspace c) eqn:Hc; simpl.
  - by rewrite IH, lstrip_collapse_flag.
  - by rewrite Hc.
Qed.

(** Trimming before or after collapsing the runs gives one result. *)
Lemma re_sub_ws_strip s : re_sub_ws (strip s) = strip (re_sub_ws s).
Proof.
  unfold re_sub_ws, strip. by rewrite collapse_rstrip, collapse_lstrip.
Qed.

Lemma all_space_lstrip s : all_space (lstrip s) = all_space s.
Proof.
  induction s as [|c r IH]; simpl; [done|].
  destruct (isspace c) eqn:Hc; simpl; [done|]. by rewrite Hc.
Qed.

Lemma truthy_strip s : truthy (strip s) = negb (all_space s).
Proof.
  unfold strip. rewrite <-(all_space_lstrip s).
  destruct (rstrip (lstrip s)) eqn:E.
  - apply rstrip_empty_iff in E. by rewrite E.
  - destruct (all_space (lstrip s)) eqn:F; [|done].
    apply rstrip_all_space in F. congruence.
Qed.

Lemma truthy_false s : truthy s = false ↔ s = "".
Proof. by destruct s. Qed.

Lemma length_take n s :
  String.length (take n s) = Nat.min n (String.length s).
Proof.
  revert s. induction n as [|n IH]; intros [|c r]; simpl; [done..|].
  by rewrite IH.
Qed.

Lemma take_all n s : (String.length s ≤ n)%nat → take n s = s.
Proof.
  revert s. induction n as [|n IH]; intros [|c r]; simpl; try done.
  - lia.
  - intros ?. rewrite IH; [done|lia].
Qed.

Lemma take_app_exact s1 s2 : take (String.length s1) (s1 +:+ s2) = s1.
Proof. induction s1 as [|c r IH]; simpl; [by destruct s2|]. by rewrite IH. Qed.

Lemma length_app s1 s2 :
  String.length (s1 +:+ s2) = (String.length s1 + String.length s2)%nat.
Proof. induction s1 as [|c r IH]; simpl; [done|]. by rewrite IH. Qed.

Lemma length_slice_to n s :
  0 ≤ n →
  Z.of_nat (String.length (slice_to n s))
  = Z.min n (Z.of_nat (String.length s)).
Proof.
  intros Hn. unfold slice_to.
  destruct (Z.leb_spec 0 n); [|lia]. rewrite length_take. lia.
Qed.

End PyStrFacts.

(** ** Deduplication *)

Module ResourceFacts.
Import ResourceManager ResourceSpec PyStrFacts.

(** The signature the code computes is the one the specification
    describes: trimming and collapsing commute, and lowercasing keeps
    whitespace. *)
Lemma signature_refines_spec c : signature c = signature_spec c.
Proof.
  unfold signature, signature_spec.
  by rewrite <-strip_lower, re_sub_ws_strip.
Qed.

Lemma dict_set_keys {V} k (v : V) d :
  (Dict.set k v d).*1 = if decide (k ∈ d.*1) then d.*1 else d.*1 ++ [k].
Proof.
  induction d as [|[k' v'] d IH]; csimpl; [done|].
  destruct (decide (k = k')) as [->|Hne]; csimpl.
  - rewrite decide_True; [done|]. set_solver.
  - rewrite IH. destruct (decide (k ∈ d.*1)) as [Hin|Hnin].
    + rewrite decide_True; [done|]. set_solver.
    + rewrite decide_False; [done|]. set_solver.
Qed.

Lemma dict_set_wf {V} k (v : V) d : Dict.wf d → Dict.wf (Dict.set k v d).
Proof.
  unfold Dict.wf. rewrite dict_set_keys. intros Hd.
  destruct (decide (k ∈ d.*1)); [done|].
  apply NoDup_app. split_and!; [done| |apply NoDup_singleton].
  intros x Hx ->%list_elem_of_singleton. done.
Qed.

Lemma dict_set_fresh {V} k (v : V) d :
  k ∉ d.*1 → Dict.set k v d = d ++ [(k, v)].
Proof.
  induction d as [|[k' v'] d IH]; simpl; [done|]. intros Hk.
  rewrite decide_False by set_solver. f_equal. apply IH. set_solver.
Qed.

Lemma first_seen_sublist sigs items : first_seen sigs items `sublist_of` items.
Proof.
  revert sigs. induction items as [|[k d] rest IH]; intros sigs; simpl.
  - constructor.
  - destruct (negb _); [by constructor|].
    destruct (decide _); [by constructor|]. by constructor.
Qed.

(** With distinct keys every [unique[key] = data] of the loop appends. *)
Lemma dedup_loop_first_seen items unique sigs :
  NoDup (unique.*1 ++ items.*1) →
  dedup_loop items unique sigs = unique ++ first_seen sigs items.
Proof.
  revert unique sigs.
  induction items as [|[k d] rest IH]; intros unique sigs Hnd; simpl.
  - by rewrite app_nil_r.
  - simpl in Hnd.
    assert (NoDup (unique.*1 ++ rest.*1)) as Hrest.
    { apply NoDup_app in Hnd as (? & ? & ?%NoDup_cons).
      apply NoDup_app. split_and!; [done|set_solver|tauto]. }
    destruct (negb _); [by apply IH|].
    destruct (decide _); [by apply IH|].
    assert (k ∉ unique.*1) as Hk.
    { apply NoDup_app in Hnd as (? & Hd & ?). intros Hin.
      apply (Hd k Hin). set_solver. }
    rewrite dict_set_fresh by done. rewrite IH.
    + by rewrite <-app_assoc.
    + rewrite fmap_app. simpl. by rewrite <-app_assoc.
Qed.

Lemma dedup_loop_fresh items :
  Dict.wf items → dedup_loop items [] ∅ = first_seen ∅ items.
Proof. intros Hwf. by rewrite dedup_loop_first_seen. Qed.

(** Which entries [first_seen] keeps. *)
Lemma first_seen_elem sigs items i k d :
  NoDup items.*1 → items !! i = Some (k, d) →
  ((k, d) ∈ first_seen sigs items) ↔
    (get_content d ≠ "" ∧ (signature (get_content d) ∉ sigs) ∧
     ∀ j kd, (j < i)%nat → items !! j = Some kd → get_content kd.2 ≠ "" →
       signature (get_content kd.2) ≠ signature (get_content d)).
Proof.
  revert sigs i.
  induction items as [|[k0 d0] rest IH]; intros sigs i Hnd Hi; [done|].
  simpl in Hnd. apply NoDup_cons in Hnd as [Hk0 Hnd].
  assert (∀ s x, (k0, x) ∉ first_seen s rest) as Hfresh.
  { intros s x Hin. apply Hk0.
    pose proof (elem_of_sublist _ _ _ Hin (first_seen_sublist s rest)) as Hin'.
    apply (list_elem_of_fmap_2 fst) in Hin'. done. }
  destruct i as [|i]; simpl in Hi.
  - injection Hi as -> ->. simpl.
    destruct (PyStr.truthy (get_content d)) eqn:Hc; simpl.
    + assert (get_content d ≠ "") as Hne by by destruct (get_content d).
      destruct (decide _) as [Hin|Hnin].
      * split; [by intros ?%Hfresh|]. tauto.
      * split; [|set_solver]. intros _. split_and!; [done..|]. lia.
    + apply truthy_false in Hc. split; [by intros ?%Hfresh|]. tauto.
  - assert (k ≠ k0) as Hk.
    { intros ->. apply Hk0. apply list_elem_of_lookup_2 in Hi.
      by apply (list_elem_of_fmap_2 fst) in Hi. }
    specialize (IH) with (i := i).
    simpl. destruct (PyStr.truthy (get_content d0)) eqn:Hc; simpl.
    + assert (get_content d0 ≠ "") as Hne by by destruct (get_content d0).
      destruct (decide _) as [Hin|Hnin].
      * rewrite (IH sigs) by done. split.
        -- intros (? & ? & Hall). split_and!; [done..|].
           intros [|j] kd Hj Hkd Hkdc; simpl in Hkd.
           ++ injection Hkd as <-. simpl. congruence.
           ++ apply (Hall j); [lia|done..].
        -- intros (? & ? & Hall). split_and!; [done..|].
           intros j kd Hj Hkd. apply (Hall (S j)); [lia|done].
      * rewrite elem_of_cons, (IH ({[signature (get_content d0)]} ∪ sigs))
          by done.
        split.
        -- intros [?|(? & Hs & Hall)]; [congruence|].
           split_and!; [done|set_solver|].
           intros [|j] kd Hj Hkd Hkdc; simpl in Hkd.
           ++ injection Hkd as <-. simpl. set_solver.
           ++ apply (Hall j); [lia|done..].
        -- intros (? & ? & Hall). right. split_and!; [done| |].
           ++ specialize (Hall 0%nat (k0, d0)). simpl in Hall.
              assert (signature (get_content d0) ≠ signature (get_content d))
                by (apply Hall; [lia|done..]).
              set_solver.
           ++ intros j kd Hj Hkd. apply (Hall (S j)); [lia|done].
    + apply truthy_false in Hc. rewrite (IH sigs) by done. split.
      * intros (? & ? & Hall). split_and!; [done..|].
        intros [|j] kd Hj Hkd Hkdc; simpl in Hkd.
        -- injection Hkd as <-. done.
        -- apply (Hall j); [lia|done..].
      * intros (? & ? & Hall). split_and!; [done..|].
        intros j kd Hj Hkd. apply (Hall (S j)); [lia|done].
Qed.

Lemma first_seen_deduplicated items :
  Dict.wf items → deduplicated items (first_seen ∅ items).
Proof.
  intros Hwf. split; [apply first_seen_sublist|].
  intros i k d Hi. rewrite (first_seen_elem ∅ items i k d Hwf Hi).
  unfold first_of_signature. split.
  - intros (? & _ & Hall). split; [done|]. intros j kd ???.
    rewrite <-!signature_refines_spec. by apply (Hall j).
  - intros (? & Hall). split_and!; [done|set_solver|]. intros j kd ???.
    rewrite !signature_refines_spec. by apply (Hall j).
Qed.

End ResourceFacts.

Module DedupFacts.
Import ResourceManager ResourceSpec PyStrFacts ResourceFacts.

Lemma dict_set_elem {V} k (v : V) d x :
  x ∈ Dict.set k v d → x = (k, v) ∨ x ∈ d.
Proof.
  induction d as [|[k' v'] d IH]; simpl.
  - intros ?%list_elem_of_singleton. by left.
  - destruct (decide (k = k')) as [->|Hne]; rewrite !elem_of_cons;
      naive_solver.
Qed.

Lemma dict_set_Forall {V} (P : string * V → Prop) k v d :
  P (k, v) → Forall P d → Forall P (Dict.set k v d).
Proof.
  intros Hkv Hd. apply Forall_forall. intros x [->|Hx]%dict_set_elem;
    [done|]. by eapply Forall_forall in Hd.
Qed.

Lemma dict_set_NoDup_fmap {V B} (f : string * V → B) k v d :
  f (k, v) ∉ f <$> d → NoDup (f <$> d) → NoDup (f <$> Dict.set k v d).
Proof.
  induction d as [|[k' v'] d IH]; csimpl; intros Hf Hd.
  - apply NoDup_singleton.
  - apply NoDup_cons in Hd as [Hk' Hd]. apply not_elem_of_cons in Hf as [? ?].
    destruct (decide (k = k')) as [->|Hne]; csimpl.
    + by apply NoDup_cons.
    + apply NoDup_cons. split; [|by apply IH].
      intros (x & Hx & [->|Hin]%dict_set_elem)%list_elem_of_fmap;
        [congruence|].
      apply Hk'. rewrite Hx. by apply list_elem_of_fmap_2.
Qed.

Abbreviation sig_of := (λ kd : string * Resource, signature (get_content kd.2)).

(** What every pass of the loop keeps true of its [unique] mapping:
    distinct keys, content everywhere, and distinct signatures, all of
    them recorded in the signature set. *)
Lemma dedup_loop_invariant items unique sigs :
  NoDup unique.*1 →
  Forall (λ kd, get_content kd.2 ≠ "" ∧ sig_of kd ∈ sigs) unique →
  NoDup (sig_of <$> unique) →
  NoDup (dedup_loop items unique sigs).*1 ∧
  Forall (λ kd, get_content kd.2 ≠ "") (dedup_loop items unique sigs) ∧
  NoDup (sig_of <$> dedup_loop items unique sigs).
Proof.
  revert unique sigs.
  induction items as [|[k d] rest IH]; intros unique sigs Hk Hall Hs; simpl.
  - split_and!; [done| |done]. eapply Forall_impl; [done|]. naive_solver.
  - destruct (PyStr.truthy (get_content d)) eqn:Hc; simpl; [|by apply IH].
    destruct (decide _) as [Hin|Hnin]; [by apply IH|].
    apply IH.
    + by apply dict_set_wf.
    + apply dict_set_Forall.
      * simpl. split; [by destruct (get_content d)|set_solver].
      * eapply Forall_impl; [done|]. set_solver.
    + apply dict_set_NoDup_fmap; [|done]. simpl.
      intros (x & Hx & Hxin)%list_elem_of_fmap.
      eapply Forall_forall in Hall as [_ ?]; [|done]. congruence.
Qed.

Lemma dedup_loop_output items :
  Dict.wf (dedup_loop items [] ∅) ∧
  Forall (λ kd, get_content kd.2 ≠ "") (dedup_loop items [] ∅) ∧
  NoDup (sig_of <$> dedup_loop items [] ∅).
Proof. apply dedup_loop_invariant; by constructor. Qed.

Lemma truthy_true c : c ≠ "" → PyStr.truthy c = true.
Proof. by destruct c. Qed.

Lemma first_seen_keep sigs k d rest :
  get_content d ≠ "" → signature (get_content d) ∉ sigs →
  first_seen sigs ((k, d) :: rest)
  = (k, d) :: first_seen ({[signature (get_content d)]} ∪ sigs) rest.
Proof.
  intros Hc Hs. cbn [first_seen]. rewrite truthy_true by done.
  cbn [negb]. by rewrite decide_False.
Qed.

(** A list with content everywhere and distinct signatures, none of
    them seen so far, is kept as it is. *)
Lemma first_seen_id sigs l :
  Forall (λ kd, get_content kd.2 ≠ "") l →
  NoDup (sig_of <$> l) →
  (∀ kd, kd ∈ l → sig_of kd ∉ sigs) →
  first_seen sigs l = l.
Proof.
  revert sigs. induction l as [|[k d] l IH]; intros sigs Hc Hs Hfresh;
    [done|].
  apply Forall_cons in Hc as [Hd Hc]. rewrite fmap_cons in Hs.
  apply NoDup_cons in Hs as [Hnew Hs]. cbn [snd] in Hd, Hnew.
  rewrite first_seen_keep; [|done|].
  - f_equal. apply IH; [done..|]. intros kd Hkd.
    specialize (Hfresh kd (list_elem_of_further _ _ _ Hkd)).
    apply not_elem_of_union. split; [|done].
    intros Heq%elem_of_singleton. apply Hnew. rewrite <-Heq.
    by apply (list_elem_of_fmap_2 sig_of) in Hkd.
  - apply (Hfresh (k, d)), list_elem_of_here.
Qed.

(** A second pass over the output of a pass changes nothing. *)
Lemma dedup_loop_idempotent items :
  dedup_loop (dedup_loop items [] ∅) [] ∅ = dedup_loop items [] ∅.
Proof.
  destruct (dedup_loop_output items) as (Hwf & Hc & Hs).
  rewrite dedup_loop_fresh by done.
  apply first_seen_id; [done..|set_solver].
Qed.

Lemma first_seen_no_empty sigs items :
  Forall (λ kd, get_content kd.2 ≠ "") (first_seen sigs items).
Proof.
  revert sigs. induction items as [|[k d] rest IH]; intros sigs; simpl;
    [constructor|].
  destruct (PyStr.truthy (get_content d)) eqn:Hc; simpl; [|apply IH].
  destruct (decide _); [apply IH|]. constructor; [|apply IH].
  simpl. by destruct (get_content d).
Qed.

End DedupFacts.

(** ** The resource manager: deduplication, truncation, context *)

Module ManagerProperties.
Import ResourceManager ResourceSpec PyStrFacts ResourceFacts DedupFacts.

Lemma deduplicate_returns r st :
  stats r = Some st →
  _deduplicate_resources r
  = let r' :=
      {| urls := Some (dedup_loop (urls_of r) [] ∅);
         files := Some (dedup_loop (files_of r) [] ∅);
         stats :=
           Some (<["duplicates_removed" :=
                     Z.of_nat (length (urls_of r))
                     - Z.of_nat (length (dedup_loop (urls_of r) [] ∅))
                     + (Z.of_nat (length (files_of r))
                        - Z.of_nat (length (dedup_loop (files_of r) [] ∅)))]>
                   st);
         metadata := metadata r |} in
    (Ok r', r').
Proof. intros Hst. unfold _deduplicate_resources. by rewrite Hst. Qed.

(** The two mappings of the object after the call, with or without
    [stats]. *)
Lemma deduplicate_mappings r :
  urls_of (_deduplicate_resources r).2 = dedup_loop (urls_of r) [] ∅ ∧
  files_of (_deduplicate_resources r).2 = dedup_loop (files_of r) [] ∅.
Proof. unfold _deduplicate_resources. by destruct (stats r). Qed.

(** C1.  On every [resources] (its two mappings, as dicts, have distinct
    keys) the object after deduplication has, in each namespace taken on
    its own, the entries in their order, and an entry stays exactly when
    it has content and no earlier entry of that namespace with content
    has its signature: the first 100 characters, lowercased, runs of
    whitespace collapsed, trimmed.  Entries without content are dropped.
    The urls kept depend on the urls only and the files kept on the files
    only.  When [resources] has its [stats], the call returns that
    object. *)
Theorem deduplicate_keeps_first_of_each_signature (r : ResourceSet) :
  Dict.wf (urls_of r) → Dict.wf (files_of r) →
  deduplicated (urls_of r) (urls_of (_deduplicate_resources r).2) ∧
  deduplicated (files_of r) (files_of (_deduplicate_resources r).2) ∧
  no_empty_content (_deduplicate_resources r).2 ∧
  (is_Some (stats r) →
   (_deduplicate_resources r).1 = Ok (_deduplicate_resources r).2).
Proof.
  intros Hu Hf. destruct (deduplicate_mappings r) as [Eu Ef].
  unfold no_empty_content. rewrite Eu, Ef, !dedup_loop_fresh by done.
  split_and!; try (by apply first_seen_deduplicated);
    try apply first_seen_no_empty.
  intros [st Hst]. by rewrite (deduplicate_returns r st Hst).
Qed.

Lemma deduplicate_keeps_first_of_each_signature_witness :
  Dict.wf (urls_of Samples.collected) ∧
  Dict.wf (files_of Samples.collected) ∧
  deduplicated (urls_of Samples.collected)
    (urls_of (_deduplicate_resources Samples.collected).2) ∧
  deduplicated (files_of Samples.collected)
    (files_of (_deduplicate_resources Samples.collected).2) ∧
  no_empty_content (_deduplicate_resources Samples.collected).2 ∧
  (is_Some (stats Samples.collected) →
   (_deduplicate_resources Samples.collected).1
   = Ok (_deduplicate_resources Samples.collected).2).
Proof.
  assert (Dict.wf (urls_of Samples.collected)) as Hu by compute_done.
  assert (Dict.wf (files_of Samples.collected)) as Hf by compute_done.
  split; [exact Hu|]. split; [exact Hf|].
  exact (deduplicate_keeps_first_of_each_signature Samples.collected Hu Hf).
Defined.

(** Signatures are compared inside a namespace only: the first url
    with content and the first file with content both stay, whatever
    their signatures. *)
Corollary first_url_and_first_file_stay (r : ResourceSet) ku du kf df
    (i j : nat) :
  Dict.wf (urls_of r) → Dict.wf (files_of r) →
  urls_of r !! i = Some (ku, du) → files_of r !! j = Some (kf, df) →
  first_of_signature (urls_of r) i du →
  first_of_signature (files_of r) j df →
  signature_spec (get_content du) = signature_spec (get_content df) →
  (ku, du) ∈ urls_of (_deduplicate_resources r).2 ∧
  (kf, df) ∈ files_of (_deduplicate_resources r).2.
Proof.
  intros Hu Hf Hi Hj Hfu Hff _. destruct (deduplicate_mappings r) as [-> ->].
  rewrite !dedup_loop_fresh by done.
  destruct (first_seen_deduplicated _ Hu) as [_ Hku].
  destruct (first_seen_deduplicated _ Hf) as [_ Hkf].
  split; [by apply (Hku i)|by apply (Hkf j)].
Qed.

(** On the sample only the first url stays of the three (the second has
    its signature, the third has no content), so two removals are
    counted; the file with the content of the first url stays. *)
Example deduplicate_sample :
  ∃ r', _deduplicate_resources Samples.collected = (Ok r', r') ∧
        (urls_of r').*1 = ["https://a.example"] ∧
        (files_of r').*1 = ["notes.txt"] ∧
        duplicates_removed r' = Some 2.
Proof. eexists. split; [reflexivity|]. by vm_compute. Qed.

(** C6.  Deduplication is idempotent: on the object that a
    deduplication pass returned, a second pass returns, leaves the [urls]
    and [files] mappings as they are and writes
    [duplicates_removed = 0]. *)
Theorem deduplicate_idempotent (r0 r : ResourceSet) :
  (_deduplicate_resources r0).1 = Ok r →
  ∃ r2, _deduplicate_resources r = (Ok r2, r2) ∧
        urls r2 = urls r ∧ files r2 = files r ∧
        duplicates_removed r2 = Some 0.
Proof.
  intros H0. unfold _deduplicate_resources in H0.
  destruct (stats r0) as [st|] eqn:Hst; [|done]. injection H0 as <-.
  eexists. split; [by eapply deduplicate_returns|].
  unfold urls_of, files_of. cbn [urls files from_option id stats metadata].
  rewrite !dedup_loop_idempotent. split_and!; [done..|].
  unfold duplicates_removed. cbn [stats mbind option_bind].
  rewrite lookup_insert_eq. f_equal. lia.
Qed.

Lemma deduplicate_idempotent_witness :
  (_deduplicate_resources Samples.collected).1 = Ok Samples.collected_once ∧
  ∃ r2, _deduplicate_resources Samples.collected_once = (Ok r2, r2) ∧
        urls r2 = urls Samples.collected_once ∧
        files r2 = files Samples.collected_once ∧
        duplicates_removed r2 = Some 0.
Proof.
  assert ((_deduplicate_resources Samples.collected).1
          = Ok Samples.collected_once) as H by (vm_compute; reflexivity).
  split; [exact H|].
  exact (deduplicate_idempotent Samples.collected Samples.collected_once H).
Defined.

Lemma get_content_set c d : get_content (set_content c d) = c.
Proof. done. Qed.

Lemma truncate_resource_ok m d :
  0 ≤ m → truncation_ok m d (truncate_resource m d).
Proof.
  intros Hm. unfold truncation_ok, truncate_resource.
  destruct (Z.ltb_spec m (len (get_content d))) as [Hlt|Hle].
  - assert (len (get_content
                   (set_content
                      (PyStr.slice_to m (get_content d) +:+ truncation_suffix)
                      d))
            = m + len truncation_suffix) as ->; [|lia].
    rewrite get_content_set. unfold len in *.
    rewrite length_app, Nat2Z.inj_add, length_slice_to by done. lia.
  - split_and!; [|done|lia].
    unfold len at 2. lia.
Qed.

Lemma truncate_items_ok m items :
  0 ≤ m → truncated m items (truncate_items m items).
Proof.
  intros Hm. unfold truncated, truncate_items.
  induction items as [|[k d] rest IH]; csimpl; constructor; [|done].
  split; [done|]. by apply truncate_resource_ok.
Qed.

(** A [data] object that the two loops reach more than once (stored
    under two keys) is truncated each time; from the second time on
    nothing changes. *)
Lemma truncate_resource_idempotent m d :
  0 ≤ m →
  truncate_resource m (truncate_resource m d) = truncate_resource m d.
Proof.
  intros Hm.
  destruct (Z.ltb_spec m (len (get_content d))) as [Hlt|Hle].
  - assert (truncate_resource m d
            = set_content
                (PyStr.slice_to m (get_content d) +:+ truncation_suffix) d)
      as ->.
    { unfold truncate_resource. by rewrite (proj2 (Z.ltb_lt _ _) Hlt). }
    assert (len (PyStr.slice_to m (get_content d)) = m) as Hlen.
    { unfold len in *. rewrite length_slice_to by done. lia. }
    unfold truncate_resource. rewrite get_content_set.
    assert ((m <? len (PyStr.slice_to m (get_content d) +:+ truncation_suffix))
            = true) as ->.
    { apply Z.ltb_lt. unfold len in *. rewrite length_app, Nat2Z.inj_add.
      change (Z.of_nat (String.length truncation_suffix)) with 23. lia. }
    unfold set_content. cbn [title content extra]. do 3 f_equal.
    unfold PyStr.slice_to at 1. destruct (Z.leb_spec 0 m); [|lia].
    replace (Z.to_nat m)
      with (String.length (PyStr.slice_to m (get_content d)))
      by (unfold len in Hlen; lia).
    by rewrite take_app_exact.
  - assert (truncate_resource m d = d) as Hd; [|by rewrite !Hd].
    unfold truncate_resource.
    destruct (Z.ltb_spec m (len (get_content d))); [lia|done].
Qed.

(** C3, as amended.  For a limit that is not negative, after the
    truncation stage every resource of both namespaces, under its key,
    has content no longer than the limit plus the length of the suffix; a
    resource whose content was within the limit is unchanged; and one
    whose content was longer ends with exactly the limit plus the length
    of the suffix. *)
Theorem truncate_bounds_content (m : Z) (r : ResourceSet) :
  0 ≤ m → truncation_holds m r.
Proof.
  intros Hm. unfold truncation_holds, urls_of, files_of. simpl.
  split.
  - destruct (urls r); csimpl; [by apply truncate_items_ok|constructor].
  - destruct (files r); csimpl; [by apply truncate_items_ok|constructor].
Qed.

Lemma truncate_bounds_content_witness :
  0 ≤ 3 ∧ truncation_holds 3 Samples.one_url.
Proof.
  assert (0 ≤ 3) as H by lia.
  split; [exact H|]. exact (truncate_bounds_content 3 Samples.one_url H).
Defined.

(** C3, as stated, fails for a negative limit: the slice [content[:-1]]
    drops one character, so that ["hello"] becomes
    ["hell... [content truncated]"], of length 27, above [-1 + 23]. *)
Lemma truncate_negative_limit_exceeds_bound :
  ¬ truncation_holds (-1) Samples.one_url.
Proof.
  intros [Hu _]. vm_compute in Hu.
  apply Forall2_cons_1 in Hu as [[_ [Hle _]] _]. by apply Hle.
Qed.

Example truncate_sample :
  urls (_truncate_content (-1) Samples.one_url)
  = Some [("https://a.example",
           Samples.resource "hell... [content truncated]")].
Proof. reflexivity. Qed.

(** C7, as stated, fails: a [resources] without its ["stats"] key makes
    [resources["stats"]] raise [KeyError]. *)
Lemma deduplicate_raises_without_stats :
  (_deduplicate_resources Samples.without_stats).1
  = Raise (KeyError "stats").
Proof. reflexivity. Qed.

(** C7, as amended.  On every [resources] that has its [stats] mapping
    (with or without [urls], [files] and [metadata], and with resources
    whose content is empty or absent) deduplication returns and keeps no
    entry without content, and the post-processing, with or without
    deduplication, returns for every limit. *)
Theorem post_process_returns (m : Z) (r : ResourceSet) :
  is_Some (stats r) →
  (∃ r1, _deduplicate_resources r = (Ok r1, r1) ∧ no_empty_content r1) ∧
  (∃ r2, post_process m true r = Ok r2) ∧
  post_process m false r = Ok (_truncate_content m r).
Proof.
  intros [st Hst]. pose proof (deduplicate_returns r st Hst) as Hd.
  split_and!; [eexists; split; [exact Hd|]| |done].
  - split; apply dedup_loop_output.
  - unfold post_process. rewrite Hd. by eexists.
Qed.

Lemma post_process_returns_witness :
  is_Some (stats Samples.collected) ∧
  (∃ r1, _deduplicate_resources Samples.collected = (Ok r1, r1)
         ∧ no_empty_content r1) ∧
  (∃ r2, post_process 10000 true Samples.collected = Ok r2) ∧
  post_process 10000 false Samples.collected
  = Ok (_truncate_content 10000 Samples.collected).
Proof.
  assert (is_Some (stats Samples.collected)) as H by (vm_compute; eauto).
  split; [exact H|]. exact (post_process_returns 10000 Samples.collected H).
Defined.

(** C10.  The text that [extract_context] returns does not depend on
    [topic], and the [resources] passed in is the same after the call. *)
Theorem extract_context_ignores_topic (path_name : string → string)
    (r : ResourceSet) (t1 t2 : string) (max_items : Z) :
  extract_context path_name r t1 max_items
  = extract_context path_name r t2 max_items ∧
  extract_context_call path_name r t1 max_items
  = (extract_context path_name r t1 max_items, r) ∧
  extract_context_call path_name r t2 max_items
  = (extract_context path_name r t2 max_items, r).
Proof. done. Qed.

Example extract_context_sample :
  extract_context id Samples.collected_once "any topic" 5
  = "## Web Resources" +:+ nl +:+ nl +:+ nl
    +:+ "### https://a.example" +:+ nl +:+ "Hello   World" +:+ nl +:+ nl +:+ nl
    +:+ "## Local Resources" +:+ nl +:+ nl +:+ nl
    +:+ "### notes.txt" +:+ nl +:+ "Hello   World" +:+ nl +:+ nl +:+ nl
    +:+ "## Keywords" +:+ nl +:+ "hello, world".
Proof. reflexivity. Qed.

End ManagerProperties.

(** ** The vector store: ranking *)

Module SearchFacts.
Import RAGEngine RAGSpec.

Abbreviation above := (λ a b : SearchResult, (score b <= score a)%Q).

Lemma Qle_bool_false x y : Qle_bool x y = false → (y <= x)%Q.
Proof.
  intros H. apply Qlt_le_weak, Qnot_le_lt. intros Hle.
  apply Qle_bool_iff in Hle. congruence.
Qed.

Lemma insert_ranked_elem x l y : y ∈ insert_ranked x l ↔ y = x ∨ y ∈ l.
Proof.
  induction l as [|z l IH]; simpl.
  - rewrite list_elem_of_singleton. set_solver.
  - destruct (Qle_bool (score z) (score x)); rewrite !elem_of_cons;
      [done|]. rewrite IH. tauto.
Qed.

Lemma insert_ranked_sorted x l :
  StronglySorted above l → StronglySorted above (insert_ranked x l).
Proof.
  induction 1 as [|z l Hl IH Hz]; simpl.
  - repeat constructor.
  - destruct (Qle_bool (score z) (score x)) eqn:Hzx.
    + apply Qle_bool_iff in Hzx. constructor; [by constructor|].
      constructor; [done|]. eapply Forall_impl; [exact Hz|].
      intros w Hw. simpl in *. by eapply Qle_trans.
    + apply Qle_bool_false in Hzx. constructor; [done|].
      apply Forall_forall. intros w [->|Hw]%insert_ranked_elem; [done|].
      by eapply Forall_forall in Hz.
Qed.

Lemma rank_sorted l : StronglySorted above (rank l).
Proof.
  induction l as [|x l IH]; simpl; [constructor|].
  by apply insert_ranked_sorted.
Qed.

Lemma rank_elem l y : y ∈ rank l ↔ y ∈ l.
Proof.
  induction l as [|x l IH]; simpl; [done|].
  rewrite insert_ranked_elem, elem_of_cons, IH. tauto.
Qed.

Lemma StronglySorted_sublist {A} (R : relation A) l1 l2 :
  l1 `sublist_of` l2 → StronglySorted R l2 → StronglySorted R l1.
Proof.
  induction 1 as [|x l1 l2 Hsub IH|x l1 l2 Hsub IH]; intros Hs.
  - constructor.
  - apply StronglySorted_cons in Hs as [Hx Hs].
    apply StronglySorted_cons. split; [|by apply IH].
    apply Forall_forall. intros y Hy. eapply Forall_forall in Hx; [done|].
    by eapply elem_of_sublist.
  - apply StronglySorted_cons in Hs as [_ Hs]. by apply IH.
Qed.

Section Search.
Variable similarity : embedding → embedding → Q.

Lemma search_sublist q k t f db :
  search similarity q k t f db
  `sublist_of` rank (to_result similarity q <$> filter (matches_filter f) (records db)).
Proof.
  unfold search. etrans; [apply sublist_take|apply sublist_filter].
Qed.

Lemma search_length q k t f db :
  (length (search similarity q k t f db) ≤ k)%nat.
Proof. unfold search. rewrite length_take. lia. Qed.

Lemma search_threshold q k t f db :
  Forall (λ r, (t <= score r)%Q) (search similarity q k t f db).
Proof.
  apply Forall_forall. intros r Hr.
  pose proof (elem_of_sublist _ _ _ Hr (sublist_take _ k)) as Hr'.
  apply list_elem_of_filter in Hr' as [Ht _].
  apply Qle_bool_iff. by apply Is_true_true.
Qed.

Lemma search_descending q k t f db :
  descending (search similarity q k t f db).
Proof.
  eapply StronglySorted_sublist; [apply search_sublist|apply rank_sorted].
Qed.

Lemma search_restrict q k t f db :
  search similarity q k t f db
  = search similarity q k t None (restrict f db).
Proof.
  unfold search, restrict. cbn [records].
  do 4 f_equal. symmetry. by apply list_filter_filter_r.
Qed.

Lemma search_from_candidates q k t f db :
  Forall (λ r, ∃ rec, rec ∈ records db ∧ matches_filter f rec
                      ∧ r = to_result similarity q rec)
    (search similarity q k t f db).
Proof.
  apply Forall_forall. intros r Hr.
  pose proof (elem_of_sublist _ _ _ Hr (search_sublist q k t f db)) as Hr'.
  apply rank_elem, list_elem_of_fmap in Hr' as (rec & -> & Hrec).
  apply list_elem_of_filter in Hrec as [? ?]. eauto.
Qed.
End Search.

End SearchFacts.

(** ** The RAG engine *)

Module EngineProperties.
Import RAGEngine RAGSpec PyStrFacts SearchFacts.

(** The test [not text or not text.strip()] holds exactly of the texts
    that are empty or all whitespace. *)
Lemma blank_test text :
  negb (PyStr.truthy text) || negb (PyStr.truthy (PyStr.strip text))
  = PyStr.all_space text.
Proof.
  rewrite truthy_strip, negb_involutive.
  destruct text as [|c r]; [done|]. done.
Qed.

Section Engine.
Variable chunk_text : Z → Z → string → list string.
Variable embed_text : string → string → result embedding.
Variable embed_texts : string → list string → result (list embedding).
Variable get_embedding_dimension : string → Z.
Variable similarity : embedding → embedding → Q.

(** C8.  For a text that is empty or all whitespace [add_document]
    returns 0 and leaves the engine as it was: the vector store is the
    same and the list of calls to the provider has not grown. *)
Theorem add_document_blank_is_noop (text : string)
    (metadata : option (gmap string string)) (source : option string)
    (e : Engine) :
  PyStr.all_space text = true →
  add_document chunk_text embed_texts text metadata source e = (Ok 0, e).
Proof. intros Hb. unfold add_document. by rewrite blank_test, Hb. Qed.

(** C5.  For a text that is not blank and of which the chunker makes at
    least one chunk, so that the provider is asked, a failure of the
    provider makes [add_document] raise one [RuntimeError] for the failed
    embedding; the vector store and the counters are as before, and the
    engine differs only by the recorded call. *)
Theorem add_document_embedding_failure (text : string)
    (metadata : option (gmap string string)) (source : option string)
    (e : Engine) (err : exn) :
  PyStr.all_space text = false →
  chunk_text (chunker e).1 (chunker e).2 text ≠ [] →
  embed_texts (embedder e) (chunk_text (chunker e).1 (chunker e).2 text)
  = Raise err →
  ∃ e',
    add_document chunk_text embed_texts text metadata source e
    = (Raise (RuntimeError ("Failed to generate embeddings for document: "
                            +:+ exn_str err)), e') ∧
    vector_db e' = vector_db e ∧ stats e' = stats e ∧
    e' = with_call
           (EmbedTexts (chunk_text (chunker e).1 (chunker e).2 text)) e.
Proof.
  intros Hb Hc Herr. unfold add_document. rewrite blank_test, Hb.
  destruct (chunk_text _ _ text) as [|c cs] eqn:Hcs; [done|].
  rewrite Herr. by eexists.
Qed.

(** C2.  When the provider embeds the query, [retrieve] returns at most
    [top_k] results, each with a score of at least [threshold], in
    descending order of score; they are what the search finds in the
    store restricted to the records whose [metadata.source] passes
    [source_filter], and each comes from such a record. *)
Theorem retrieve_results_ranked (query : string) (top_k : nat)
    (threshold : Q) (source_filter : option SourceFilter) (e : Engine)
    (query_embedding : embedding) :
  embed_text (embedder e) query = Ok query_embedding →
  ∃ results e',
    retrieve embed_text similarity query top_k threshold source_filter e
    = (Ok results, e') ∧
    (length results ≤ top_k)%nat ∧
    Forall (λ r, (threshold <= score r)%Q) results ∧
    descending results ∧
    results = search similarity query_embedding top_k threshold None
                (restrict source_filter (vector_db e)) ∧
    Forall (λ r, ∃ rec, rec ∈ records (vector_db e)
                        ∧ matches_filter source_filter rec
                        ∧ r = to_result similarity query_embedding rec)
      results.
Proof.
  intros Hq. unfold retrieve. rewrite Hq. do 2 eexists.
  split; [done|]. cbn [with_call vector_db].
  split_and!.
  - apply search_length.
  - apply search_threshold.
  - apply search_descending.
  - apply search_restrict.
  - apply search_from_candidates.
Qed.

(** *** The counters *)

Lemma init_creates_no_stats run_id base_dir model cs co w e w' :
  __init__ run_id base_dir model cs co w = Ok (e, w') → stats e = None.
Proof.
  unfold __init__. destruct (check_for_ollama true w); [|done].
  by intros [= <- _].
Qed.

Lemma retrieve_without_stats query top_k threshold source_filter e :
  stats e = None →
  stats (retrieve embed_text similarity query top_k threshold source_filter e).2
  = None.
Proof.
  intros Hs. unfold retrieve.
  destruct (embed_text _ _); cbn [snd with_stats with_call stats bump];
    by rewrite ?Hs.
Qed.

Lemma add_document_without_stats text metadata source e :
  stats e = None →
  stats (add_document chunk_text embed_texts text metadata source e).2 = None.
Proof.
  intros Hs. unfold add_document.
  destruct (_ || _); [done|]. destruct (chunk_text _ _ _); [done|].
  destruct (embed_texts _ _); [|done].
  destruct (db_add_document _ _ _ _ _) as [[? ?]|]; [|done].
  cbn [snd with_stats with_call with_vector_db stats bump]. by rewrite Hs.
Qed.

(** On an engine without the [stats] attribute no number of retrievals
    moves the reported query count from 0. *)
Lemma retrieve_many_without_stats queries top_k threshold source_filter e :
  stats e = None →
  query_count
    (get_stats get_embedding_dimension
       (retrieve_many embed_text similarity queries top_k threshold
          source_filter e).2) = 0.
Proof.
  revert e. induction queries as [|q qs IH]; intros e Hs; simpl.
  - unfold get_stats. cbn [query_count]. by rewrite Hs.
  - pose proof (retrieve_without_stats q top_k threshold source_filter e Hs)
      as Hs'.
    destruct (retrieve _ _ _ _ _ _ e) as [[res|err] e'];
      simpl in Hs'; [by apply IH|].
    unfold get_stats. cbn [query_count snd]. by rewrite Hs'.
Qed.




Lemma purge_resets_counters e :
  stats (purge e)
  = Some (<["documents_added" := 0]>
            (<["chunks_added" := 0]>
               (<["queries_performed" := 0]> (∅ : gmap string Z)))) ∧
  query_count (get_stats get_embedding_dimension (purge e)) = 0 ∧
  records (vector_db (purge e)) = [].
Proof. done. Qed.

End Engine.

(** C4, at a failing input.  The engine that [__init__] constructs has
    no [stats] attribute.  On it a retrieval that succeeds leaves the
    reported query count at 0, where the specification has 1, and a
    document that is added with one chunk creates no [documents_added]
    and no [chunks_added] counter. *)
Theorem fresh_engine_counts_nothing :
  (∃ w', __init__ (Some "run2") None "llama3.1:latest" 512 50 Samples.world
         = Ok (Samples.fresh_engine, w')) ∧
  (∃ results e',
     retrieve Samples.embed_by_length Samples.closeness "what is a chunk"
       5 0%Q None Samples.fresh_engine = (Ok results, e') ∧
     query_count (get_stats Samples.dimension_two e') = 0 ∧
     counter "queries_performed" e' = None) ∧
  (∃ e',
     add_document Samples.one_chunk Samples.embed_all_by_length
       "a document" None (Some "doc1") Samples.fresh_engine = (Ok 1, e') ∧
     length (records (vector_db e')) = 1%nat ∧
     counter "documents_added" e' = None ∧
     counter "chunks_added" e' = None).
Proof.
  split_and!.
  - eexists. vm_compute. reflexivity.
  - do 2 eexists. split; [reflexivity|]. done.
  - eexists. split; [reflexivity|]. done.
Qed.

Section OnSamples.
Import Samples.

Lemma add_document_blank_is_noop_witness :
  PyStr.all_space "  " = true ∧
  add_document one_chunk embed_all_by_length "  " None (Some "doc1")
    fresh_engine = (Ok 0, fresh_engine).
Proof.
  assert (PyStr.all_space "  " = true) as H by reflexivity.
  split; [exact H|].
  exact (add_document_blank_is_noop one_chunk embed_all_by_length "  " None
           (Some "doc1") fresh_engine H).
Defined.

Lemma add_document_embedding_failure_witness :
  PyStr.all_space "a document" = false ∧
  one_chunk (chunker fresh_engine).1 (chunker fresh_engine).2 "a document"
  ≠ [] ∧
  embed_all_failing (embedder fresh_engine)
    (one_chunk (chunker fresh_engine).1 (chunker fresh_engine).2 "a document")
  = Raise (RuntimeError "connection refused") ∧
  ∃ e',
    add_document one_chunk embed_all_failing "a document" None (Some "doc1")
      fresh_engine
    = (Raise (RuntimeError ("Failed to generate embeddings for document: "
                            +:+ exn_str (RuntimeError "connection refused"))),
       e') ∧
    vector_db e' = vector_db fresh_engine ∧ stats e' = stats fresh_engine ∧
    e' = with_call
           (EmbedTexts (one_chunk (chunker fresh_engine).1
                          (chunker fresh_engine).2 "a document"))
           fresh_engine.
Proof.
  assert (PyStr.all_space "a document" = false) as H1 by reflexivity.
  assert (one_chunk (chunker fresh_engine).1 (chunker fresh_engine).2
            "a document" ≠ []) as H2 by (vm_compute; discriminate).
  assert (embed_all_failing (embedder fresh_engine)
            (one_chunk (chunker fresh_engine).1 (chunker fresh_engine).2
               "a document")
          = Raise (RuntimeError "connection refused")) as H3 by reflexivity.
  split_and!; [exact H1|exact H2|exact H3|].
  exact (add_document_embedding_failure one_chunk embed_all_failing
           "a document" None (Some "doc1") fresh_engine _ H1 H2 H3).
Defined.

Lemma retrieve_results_ranked_witness :
  embed_by_length (embedder stocked_engine) "short query"
  = Ok [11%Q; 1%Q] ∧
  ∃ results e',
    retrieve embed_by_length closeness "short query" 1 (1 # 10)%Q
      (Some (OneSource "doc1")) stocked_engine = (Ok results, e') ∧
    (length results ≤ 1)%nat ∧
    Forall (λ r, ((1 # 10) <= score r)%Q) results ∧
    descending results ∧
    results = search closeness [11%Q; 1%Q] 1 (1 # 10)%Q None
                (restrict (Some (OneSource "doc1"))
                   (vector_db stocked_engine)) ∧
    Forall (λ r, ∃ rec, rec ∈ records (vector_db stocked_engine)
                        ∧ matches_filter (Some (OneSource "doc1")) rec
                        ∧ r = to_result closeness [11%Q; 1%Q] rec)
      results.
Proof.
  assert (embed_by_length (embedder stocked_engine) "short query"
          = Ok [11%Q; 1%Q]) as H by reflexivity.
  split; [exact H|].
  exact (retrieve_results_ranked embed_by_length closeness "short query" 1
           (1 # 10)%Q (Some (OneSource "doc1")) stocked_engine _ H).
Defined.

(** With the filter on ["doc1"] the chunk of ["doc2"] is not returned,
    although it is closer to the query. *)
Example retrieve_sample :
  chunk_text <$> (search closeness [11%Q; 1%Q] 5 0%Q None
                    (vector_db stocked_engine))
  = ["a longer chunk"; "short"] ∧
  chunk_text <$> (search closeness [11%Q; 1%Q] 5 0%Q
                    (Some (OneSource "doc1")) (vector_db stocked_engine))
  = ["short"] ∧
  search closeness [11%Q; 1%Q] 5 (1 # 2)%Q None (vector_db stocked_engine)
  = [].
Proof. split_and!; reflexivity. Qed.

End OnSamples.

(** *** Loading a run *)

Lemma init_returns run_id base_dir model cs co w :
  ollama_available w = true →
  ∃ e w',
    __init__ run_id base_dir model cs co w = Ok (e, w') ∧
    (∀ rid, run_id = Some rid → rid ≠ "" → RAGEngine.run_id e = rid) ∧
    cfg_embedding_model (config e) = model ∧
    cfg_chunk_size (config e) = cs ∧
    cfg_chunk_overlap (config e) = co ∧
    embedder e = model ∧ chunker e = (cs, co).
Proof.
  intros Hup. unfold __init__, check_for_ollama. rewrite Hup.
  do 2 eexists. split; [done|]. split_and!; try done.
  intros rid -> Hrid. cbn [RAGEngine.run_id]. by destruct rid.
Qed.

(** C9, as amended.  Where Ollama is available: [load] raises
    [FileNotFoundError] exactly when no vector store is persisted for the
    run; when the store and the sidecar exist it returns an engine with
    the run id and with the embedding model, chunk size and chunk overlap
    of the sidecar (a key missing in the sidecar gets ["llama3"], 512 or
    50); when the store exists and the sidecar does not, it returns an
    engine with chunk size 512 and overlap 50. *)
Theorem load_reconstructs_run (raise_error_default : bool) (rid : string)
    (base_dir : option path) (w : World) :
  ollama_available w = true →
  ((∃ msg, load raise_error_default rid base_dir w
           = Raise (FileNotFoundError msg))
   ↔ vector_dbs w !! store_path rid base_dir w = None) ∧
  (∀ db cfg,
     vector_dbs w !! store_path rid base_dir w = Some db →
     sidecars w !! sidecar_path rid base_dir w = Some cfg →
     ∃ e w',
       load raise_error_default rid base_dir w = Ok (e, w') ∧
       (rid ≠ "" → run_id e = rid) ∧
       cfg_embedding_model (config e)
       = default "llama3" (j_embedding_model cfg) ∧
       cfg_chunk_size (config e) = default 512 (j_chunk_size cfg) ∧
       cfg_chunk_overlap (config e) = default 50 (j_chunk_overlap cfg) ∧
       embedder e = default "llama3" (j_embedding_model cfg) ∧
       chunker e = (default 512 (j_chunk_size cfg),
                    default 50 (j_chunk_overlap cfg))) ∧
  (∀ db,
     vector_dbs w !! store_path rid base_dir w = Some db →
     sidecars w !! sidecar_path rid base_dir w = None →
     ∃ e w',
       load raise_error_default rid base_dir w = Ok (e, w') ∧
       (rid ≠ "" → run_id e = rid) ∧
       cfg_chunk_size (config e) = 512 ∧
       cfg_chunk_overlap (config e) = 50 ∧
       chunker e = (512, 50)).
Proof.
  intros Hup.
  assert (∀ b, check_for_ollama b w = Ok true) as Hcheck.
  { intros b. unfold check_for_ollama. by rewrite Hup. }
  unfold load, store_path, sidecar_path. cbv zeta. rewrite Hcheck.
  assert (match base_dir with Some p => p | None => cwd w ++ ["output"] end
          = default (cwd w ++ ["output"]) base_dir) as ->
    by by destruct base_dir.
  generalize (default (cwd w ++ ["output"]) base_dir ++ [rid]). intros dir.
  destruct (vector_dbs w !! (dir ++ ["vectors"; "vector.db"])) as [db|] eqn:Hdb.
  - rewrite bool_decide_eq_true_2 by done. cbn [negb].
    split_and!.
    + split; [|done].
      destruct (sidecars w !! (dir ++ ["vectors"; "metadata.json"]));
        intros [msg Hmsg];
        match type of Hmsg with
        | __init__ ?a ?b ?m ?cs ?co w = _ =>
            destruct (init_returns a b m cs co w Hup) as (e & w' & He & _)
        end; congruence.
    + intros db' cfg _ ->.
      destruct (init_returns (Some rid) base_dir
                  (default "llama3" (j_embedding_model cfg))
                  (default 512 (j_chunk_size cfg))
                  (default 50 (j_chunk_overlap cfg)) w Hup)
        as (e & w' & He & Hrid & ? & ? & ? & ? & ?).
      exists e, w'. split_and!; try done. intros ?. by apply Hrid.
    + intros db' _ ->.
      destruct (init_returns (Some rid) base_dir "llama3.1:latest" 512 50
                  w Hup) as (e & w' & He & Hrid & ? & ? & ? & ? & ?).
      exists e, w'. split_and!; try done. intros ?. by apply Hrid.
  - rewrite bool_decide_eq_false_2 by apply is_Some_None. cbn [negb].
    split_and!; [|done..]. split; [done|]. intros _. by eexists.
Qed.

Lemma load_reconstructs_run_witness :
  ollama_available Samples.world = true ∧
  ((∃ msg, load false "run1" None Samples.world
           = Raise (FileNotFoundError msg))
   ↔ vector_dbs Samples.world !! store_path "run1" None Samples.world = None) ∧
  (∀ db cfg,
     vector_dbs Samples.world !! store_path "run1" None Samples.world
     = Some db →
     sidecars Samples.world !! sidecar_path "run1" None Samples.world
     = Some cfg →
     ∃ e w',
       load false "run1" None Samples.world = Ok (e, w') ∧
       ("run1" ≠ "" → run_id e = "run1") ∧
       cfg_embedding_model (config e)
       = default "llama3" (j_embedding_model cfg) ∧
       cfg_chunk_size (config e) = default 512 (j_chunk_size cfg) ∧
       cfg_chunk_overlap (config e) = default 50 (j_chunk_overlap cfg) ∧
       embedder e = default "llama3" (j_embedding_model cfg) ∧
       chunker e = (default 512 (j_chunk_size cfg),
                    default 50 (j_chunk_overlap cfg))) ∧
  (∀ db,
     vector_dbs Samples.world !! store_path "run1" None Samples.world
     = Some db →
     sidecars Samples.world !! sidecar_path "run1" None Samples.world = None →
     ∃ e w',
       load false "run1" None Samples.world = Ok (e, w') ∧
       ("run1" ≠ "" → run_id e = "run1") ∧
       cfg_chunk_size (config e) = 512 ∧
       cfg_chunk_overlap (config e) = 50 ∧
       chunker e = (512, 50)).
Proof.
  assert (ollama_available Samples.world = true) as H by reflexivity.
  split; [exact H|].
  exact (load_reconstructs_run false "run1" None Samples.world H).
Defined.

(** C9, as stated, fails where Ollama is not available: the store and
    the sidecar of run ["run1"] exist, and [load] raises [RuntimeError]
    in place of returning an engine, whatever the default of
    [raise_error] is. *)
Lemma load_raises_when_ollama_is_down :
  is_Some (vector_dbs Samples.offline_world
           !! store_path "run1" None Samples.offline_world) ∧
  is_Some (sidecars Samples.offline_world
           !! sidecar_path "run1" None Samples.offline_world) ∧
  load false "run1" None Samples.offline_world
  = Raise (RuntimeError "Ollama is not available") ∧
  load true "run1" None Samples.offline_world
  = Raise (RuntimeError "Ollama is not available").
Proof. split_and!; [by vm_compute; eexists..|reflexivity|reflexivity]. Qed.

(** In the sample world run ["run1"] loads with the configuration of its
    sidecar, and a run that was never created does not load. *)
Example load_sample :
  (∃ e w', load false "run1" None Samples.world = Ok (e, w') ∧
           run_id e = "run1" ∧ embedder e = "nomic-embed-text" ∧
           chunker e = (256, 32)) ∧
  load false "run9" None Samples.world
  = Raise (FileNotFoundError "No RAG data found for run run9").
Proof.
  split.
  - do 2 eexists. split; [vm_compute; reflexivity|]. done.
  - vm_compute. reflexivity.
Qed.

(** With a [base_dir], [load] looks for the run under
    [base_dir / run_id], while the engine it then constructs keeps its
    store under [base_dir] itself. *)
Remark load_with_base_dir_moves_store (d : bool) (rid : string) (p : path)
    (w : World) (e : Engine) (w' : World) :
  load d rid (Some p) w = Ok (e, w') →
  is_Some (vector_dbs w !! ((p ++ [rid]) ++ ["vectors"; "vector.db"])) ∧
  vector_dir e = p ++ ["vectors"].
Proof.
  unfold load. cbv zeta. destruct (check_for_ollama d w); [|done].
  destruct (bool_decide _) eqn:Hdb; cbn [negb]; [|done].
  apply bool_decide_eq_true in Hdb. intros Hinit. split; [done|].
  destruct (sidecars w !! _); unfold __init__ in Hinit;
    destruct (check_for_ollama true w); try done;
    by injection Hinit as <- _.
Qed.

End EngineProperties.

(** * Further properties *)

(** ** Truncation and deduplication *)

Module ManagerExtras.
Import ResourceManager ResourceSpec PyStrFacts ResourceFacts DedupFacts
  ManagerProperties.

Lemma truncate_items_keys m items : (truncate_items m items).*1 = items.*1.
Proof.
  unfold truncate_items. induction items as [|[k d] rest IH]; csimpl;
    [done|]. by rewrite IH.
Qed.

Lemma truncate_resource_other_fields m d :
  title (truncate_resource m d) = title d ∧
  extra (truncate_resource m d) = extra d.
Proof. unfold truncate_resource. by destruct (_ <? _). Qed.

Lemma truncate_items_other_fields m items :
  Forall2 (λ kd kd', title kd'.2 = title kd.2 ∧ extra kd'.2 = extra kd.2)
    items (truncate_items m items).
Proof.
  unfold truncate_items. induction items as [|[k d] rest IH]; csimpl;
    constructor; [apply truncate_resource_other_fields|done].
Qed.

(** X1.  Whatever the limit, truncation drops, adds and reorders
    nothing: each namespace keeps its keys in their order, every
    resource keeps its title and its other fields, a missing [urls] or
    [files] stays missing, and [stats] and [metadata] are untouched. *)
Theorem truncate_changes_content_only (m : Z) (r : ResourceSet) :
  (urls_of (_truncate_content m r)).*1 = (urls_of r).*1 ∧
  (files_of (_truncate_content m r)).*1 = (files_of r).*1 ∧
  Forall2 (λ kd kd', title kd'.2 = title kd.2 ∧ extra kd'.2 = extra kd.2)
    (urls_of r) (urls_of (_truncate_content m r)) ∧
  Forall2 (λ kd kd', title kd'.2 = title kd.2 ∧ extra kd'.2 = extra kd.2)
    (files_of r) (files_of (_truncate_content m r)) ∧
  (urls (_truncate_content m r) = None ↔ urls r = None) ∧
  (files (_truncate_content m r) = None ↔ files r = None) ∧
  stats (_truncate_content m r) = stats r ∧
  metadata (_truncate_content m r) = metadata r.
Proof.
  unfold urls_of, files_of, _truncate_content. cbn [urls files stats metadata].
  destruct (urls r) as [us|], (files r) as [fs|]; csimpl;
    rewrite ?truncate_items_keys;
    split_and!; try done; try apply truncate_items_other_fields;
    try constructor.
Qed.

Lemma take_prefix n s : ∃ rest, s = PyStr.take n s +:+ rest.
Proof.
  revert s. induction n as [|n IH]; intros s.
  - by exists s.
  - destruct s as [|c r]; [by exists ""|].
    destruct (IH r) as [rest Hrest]. exists rest.
    transitivity (String c (PyStr.take n r +:+ rest)); [by f_equal|done].
Qed.

(** X2.  With a limit that is not negative, a content longer than the
    limit is replaced by its own first [limit] characters followed by the
    marker: nothing of the kept part is altered. *)
Theorem truncate_keeps_prefix (m : Z) (d : Resource) :
  0 ≤ m → m < len (get_content d) →
  ∃ kept rest,
    get_content d = kept +:+ rest ∧ len kept = m ∧
    get_content (truncate_resource m d) = kept +:+ truncation_suffix.
Proof.
  intros Hm Hlt. unfold truncate_resource.
  rewrite (proj2 (Z.ltb_lt _ _) Hlt), get_content_set.
  unfold PyStr.slice_to. destruct (Z.leb_spec 0 m); [|lia].
  destruct (take_prefix (Z.to_nat m) (get_content d)) as [rest Hrest].
  exists (PyStr.take (Z.to_nat m) (get_content d)), rest.
  split_and!; [done| |done].
  unfold len in *. rewrite length_take. lia.
Qed.

Lemma truncate_keeps_prefix_witness :
  0 ≤ 3 ∧ 3 < len (get_content (Samples.resource "hello")) ∧
  ∃ kept rest,
    get_content (Samples.resource "hello") = kept +:+ rest ∧ len kept = 3 ∧
    get_content (truncate_resource 3 (Samples.resource "hello"))
    = kept +:+ truncation_suffix.
Proof.
  assert (0 ≤ 3) as H1 by lia.
  assert (3 < len (get_content (Samples.resource "hello"))) as H2
    by (vm_compute; reflexivity).
  split; [exact H1|]. split; [exact H2|].
  exact (truncate_keeps_prefix 3 (Samples.resource "hello") H1 H2).
Defined.

Lemma truncate_items_idempotent m items :
  0 ≤ m → truncate_items m (truncate_items m items) = truncate_items m items.
Proof.
  intros Hm. unfold truncate_items.
  induction items as [|[k d] rest IH]; csimpl; [done|].
  rewrite IH. unfold prod_map. simpl.
  by rewrite truncate_resource_idempotent.
Qed.

(** X3.  With a limit that is not negative, truncating twice is
    truncating once: a second run over processed resources changes
    nothing. *)
Theorem truncate_idempotent (m : Z) (r : ResourceSet) :
  0 ≤ m →
  _truncate_content m (_truncate_content m r) = _truncate_content m r.
Proof.
  intros Hm. unfold _truncate_content. cbn [urls files stats metadata].
  destruct (urls r), (files r); csimpl;
    by rewrite ?truncate_items_idempotent.
Qed.

Lemma truncate_idempotent_witness :
  0 ≤ 3 ∧
  _truncate_content 3 (_truncate_content 3 Samples.collected)
  = _truncate_content 3 Samples.collected.
Proof.
  assert (0 ≤ 3) as H by lia.
  split; [exact H|]. exact (truncate_idempotent 3 Samples.collected H).
Defined.

(** *** Deduplication before or after truncation *)

Lemma app_cons c x s : String c x +:+ s = String c (x +:+ s).
Proof. done. Qed.

Lemma take_take_app n m c s :
  (n ≤ m)%nat → (m ≤ String.length c)%nat →
  PyStr.take n (PyStr.take m c +:+ s) = PyStr.take n c.
Proof.
  revert m c. induction n as [|n IH]; intros m c Hnm Hm; [done|].
  destruct m as [|m]; [lia|]. destruct c as [|a c]; simpl in Hm; [lia|].
  cbn [PyStr.take]. rewrite app_cons. cbn [PyStr.take].
  f_equal. apply IH; lia.
Qed.

Lemma signature_truncate m d :
  100 ≤ m →
  signature (get_content (truncate_resource m d)) = signature (get_content d).
Proof.
  intros Hm. unfold truncate_resource.
  destruct (Z.ltb_spec m (len (get_content d))) as [Hlt|Hle]; [|done].
  rewrite get_content_set. unfold signature. do 3 f_equal.
  unfold PyStr.slice_to. destruct (Z.leb_spec 0 m); [|lia]. cbn [Z.leb].
  unfold len in Hlt. apply take_take_app; lia.
Qed.

Lemma truthy_truncate m d :
  0 ≤ m →
  PyStr.truthy (get_content (truncate_resource m d))
  = PyStr.truthy (get_content d).
Proof.
  intros Hm. unfold truncate_resource.
  destruct (Z.ltb_spec m (len (get_content d))) as [Hlt|Hle]; [|done].
  rewrite get_content_set.
  assert (PyStr.truthy (get_content d) = true) as ->.
  { destruct (get_content d); [unfold len in Hlt; simpl in Hlt; lia|done]. }
  by destruct (PyStr.slice_to m (get_content d)).
Qed.

Lemma dict_set_truncate m k d unique :
  Dict.set k (truncate_resource m d) (truncate_items m unique)
  = truncate_items m (Dict.set k d unique).
Proof.
  unfold truncate_items. induction unique as [|[k' d'] rest IH]; csimpl;
    [done|].
  destruct (decide (k = k')); csimpl; [done|]. by rewrite IH.
Qed.

Lemma dedup_loop_truncate m items unique sigs :
  100 ≤ m →
  dedup_loop (truncate_items m items) (truncate_items m unique) sigs
  = truncate_items m (dedup_loop items unique sigs).
Proof.
  intros Hm. revert unique sigs.
  induction items as [|[k d] rest IH]; intros unique sigs; [done|].
  change (truncate_items m ((k, d) :: rest))
    with ((k, truncate_resource m d) :: truncate_items m rest).
  cbn [dedup_loop]. rewrite truthy_truncate by lia.
  destruct (negb _); [apply IH|]. rewrite signature_truncate by done.
  destruct (decide _); [apply IH|]. rewrite dict_set_truncate. apply IH.
Qed.

Lemma length_truncate_items m items :
  length (truncate_items m items) = length items.
Proof. unfold truncate_items. by rewrite length_fmap. Qed.

(** X4.  With a limit of at least 100, the width of the signature
    window, it makes no difference whether the resources are truncated
    before or after they are deduplicated: the same call outcome and the
    same object, statistics included. *)
Theorem deduplicate_truncate_commute (m : Z) (r : ResourceSet) :
  100 ≤ m →
  (_deduplicate_resources (_truncate_content m r)).2
  = _truncate_content m (_deduplicate_resources r).2 ∧
  (_deduplicate_resources (_truncate_content m r)).1
  = match (_deduplicate_resources r).1 with
    | Ok r' => Ok (_truncate_content m r')
    | Raise e => Raise e
    end.
Proof.
  intros Hm.
  assert (∀ items,
            dedup_loop (truncate_items m items) [] ∅
            = truncate_items m (dedup_loop items [] ∅)) as Hloop.
  { intros items. apply (dedup_loop_truncate m items [] ∅ Hm). }
  unfold _deduplicate_resources, _truncate_content, urls_of, files_of.
  cbn [urls files stats metadata].
  destruct (urls r) as [us|], (files r) as [fs|], (stats r) as [st|];
    cbn [fmap option_fmap option_map from_option id fst snd urls files stats
           metadata];
    rewrite ?Hloop, ?length_truncate_items; done.
Qed.

Lemma deduplicate_truncate_commute_witness :
  100 ≤ 100 ∧
  (_deduplicate_resources (_truncate_content 100 Samples.collected)).2
  = _truncate_content 100 (_deduplicate_resources Samples.collected).2 ∧
  (_deduplicate_resources (_truncate_content 100 Samples.collected)).1
  = match (_deduplicate_resources Samples.collected).1 with
    | Ok r' => Ok (_truncate_content 100 r')
    | Raise e => Raise e
    end.
Proof.
  assert (100 ≤ 100) as H by lia.
  split; [exact H|].
  exact (deduplicate_truncate_commute 100 Samples.collected H).
Defined.

(** Below 100 the order matters: with limit 4 the two sample urls are
    both kept when deduplicated first, and only one when truncated
    first. *)
Example deduplicate_truncate_order_matters :
  length (urls_of (_truncate_content 4
                     (_deduplicate_resources ExtraSamples.two_close).2))
  = 2%nat ∧
  length (urls_of (_deduplicate_resources
                     (_truncate_content 4 ExtraSamples.two_close)).2)
  = 1%nat.
Proof. split; reflexivity. Qed.

(** *** What deduplication counts and keeps *)

Lemma length_dict_set {V} k (v : V) d :
  (length (Dict.set k v d) ≤ S (length d))%nat.
Proof.
  induction d as [|[k' v'] d IH]; simpl; [lia|].
  destruct (decide (k = k')); simpl; lia.
Qed.

Lemma length_dedup_loop items unique sigs :
  (length (dedup_loop items unique sigs) ≤ length unique + length items)%nat.
Proof.
  revert unique sigs. induction items as [|[k d] rest IH];
    intros unique sigs; simpl; [lia|].
  destruct (negb _); [etrans; [apply IH|lia]|].
  destruct (decide _); [etrans; [apply IH|lia]|].
  etrans; [apply IH|]. pose proof (length_dict_set k d unique). lia.
Qed.

(** X5.  On a [resources] with its [stats], deduplication writes into
    [duplicates_removed] the number of entries that went, those dropped
    for having no content included: it is not negative, and together
    with the entries kept it makes up the entries received.  No other
    key of [stats] changes, nor does [metadata]. *)
Theorem deduplicate_accounts_for_removals (r : ResourceSet)
    (st : gmap string Z) :
  stats r = Some st →
  ∃ r' st' n,
    _deduplicate_resources r = (Ok r', r') ∧
    stats r' = Some st' ∧ st' !! "duplicates_removed" = Some n ∧ 0 ≤ n ∧
    Z.of_nat (length (urls_of r')) + Z.of_nat (length (files_of r')) + n
    = Z.of_nat (length (urls_of r)) + Z.of_nat (length (files_of r)) ∧
    (∀ k, k ≠ "duplicates_removed" → st' !! k = st !! k) ∧
    metadata r' = metadata r.
Proof.
  intros Hst. rewrite (deduplicate_returns r st Hst). cbv zeta.
  pose proof (length_dedup_loop (urls_of r) [] ∅) as Hu.
  pose proof (length_dedup_loop (files_of r) [] ∅) as Hf.
  cbn [length Nat.add] in Hu, Hf.
  do 3 eexists. split; [done|]. cbn [stats metadata].
  split; [done|]. split; [apply lookup_insert_eq|].
  change (urls_of {| urls := Some ?u; files := _; stats := _;
                     metadata := _ |}) with u.
  change (files_of {| urls := _; files := Some ?f; stats := _;
                      metadata := _ |}) with f.
  split_and!; [lia|lia| |done].
  intros k Hk. by rewrite lookup_insert_ne.
Qed.

Lemma deduplicate_accounts_for_removals_witness :
  stats Samples.collected = Some ∅ ∧
  ∃ r' st' n,
    _deduplicate_resources Samples.collected = (Ok r', r') ∧
    stats r' = Some st' ∧ st' !! "duplicates_removed" = Some n ∧ 0 ≤ n ∧
    Z.of_nat (length (urls_of r')) + Z.of_nat (length (files_of r')) + n
    = Z.of_nat (length (urls_of Samples.collected))
      + Z.of_nat (length (files_of Samples.collected)) ∧
    (∀ k, k ≠ "duplicates_removed" → st' !! k = (∅ : gmap string Z) !! k) ∧
    metadata r' = metadata Samples.collected.
Proof.
  assert (stats Samples.collected = Some ∅) as H by reflexivity.
  split; [exact H|].
  exact (deduplicate_accounts_for_removals Samples.collected ∅ H).
Defined.

Abbreviation spec_sig_of :=
  (λ kd : string * Resource, signature_spec (get_content kd.2)).

Lemma sig_of_spec (l : list (string * Resource)) :
  sig_of <$> l = spec_sig_of <$> l.
Proof.
  apply list_fmap_ext. intros i [k d] _. apply signature_refines_spec.
Qed.

(** X6.  Whatever it is given, deduplication leaves in each namespace
    entries with pairwise distinct keys and pairwise distinct
    signatures. *)
Theorem deduplicate_leaves_distinct_signatures (r : ResourceSet) :
  Dict.wf (urls_of (_deduplicate_resources r).2) ∧
  Dict.wf (files_of (_deduplicate_resources r).2) ∧
  NoDup (spec_sig_of <$> urls_of (_deduplicate_resources r).2) ∧
  NoDup (spec_sig_of <$> files_of (_deduplicate_resources r).2).
Proof.
  destruct (deduplicate_mappings r) as [-> ->]. rewrite <-!sig_of_spec.
  destruct (dedup_loop_output (urls_of r)) as (? & _ & ?).
  destruct (dedup_loop_output (files_of r)) as (? & _ & ?). done.
Qed.

(** X7.  Deduplication loses nothing when there is nothing to remove:
    if every resource has content and no two of a namespace share a
    signature, both mappings come back entry for entry, and the count
    written is 0. *)
Theorem deduplicate_keeps_distinct_resources (r : ResourceSet) :
  Dict.wf (urls_of r) → Dict.wf (files_of r) → no_empty_content r →
  NoDup (spec_sig_of <$> urls_of r) → NoDup (spec_sig_of <$> files_of r) →
  urls_of (_deduplicate_resources r).2 = urls_of r ∧
  files_of (_deduplicate_resources r).2 = files_of r ∧
  (is_Some (stats r) →
   duplicates_removed (_deduplicate_resources r).2 = Some 0).
Proof.
  intros Hu Hf [Hcu Hcf] Hsu Hsf. rewrite <-sig_of_spec in Hsu, Hsf.
  assert (dedup_loop (urls_of r) [] ∅ = urls_of r) as Eu.
  { rewrite dedup_loop_fresh by done. apply first_seen_id; [done..|set_solver]. }
  assert (dedup_loop (files_of r) [] ∅ = files_of r) as Ef.
  { rewrite dedup_loop_fresh by done. apply first_seen_id; [done..|set_solver]. }
  destruct (deduplicate_mappings r) as [-> ->]. rewrite Eu, Ef.
  split_and!; [done..|]. intros [st Hst].
  rewrite (deduplicate_returns r st Hst). cbv zeta.
  unfold duplicates_removed. cbn [snd stats mbind option_bind].
  rewrite lookup_insert_eq, Eu, Ef. f_equal. lia.
Qed.

Lemma deduplicate_keeps_distinct_resources_witness :
  Dict.wf (urls_of Samples.collected_once) ∧
  Dict.wf (files_of Samples.collected_once) ∧
  no_empty_content Samples.collected_once ∧
  NoDup (spec_sig_of <$> urls_of Samples.collected_once) ∧
  NoDup (spec_sig_of <$> files_of Samples.collected_once) ∧
  urls_of (_deduplicate_resources Samples.collected_once).2
  = urls_of Samples.collected_once ∧
  files_of (_deduplicate_resources Samples.collected_once).2
  = files_of Samples.collected_once ∧
  (is_Some (stats Samples.collected_once) →
   duplicates_removed (_deduplicate_resources Samples.collected_once).2
   = Some 0).
Proof.
  assert (Dict.wf (urls_of Samples.collected_once)) as H1 by compute_done.
  assert (Dict.wf (files_of Samples.collected_once)) as H2 by compute_done.
  assert (no_empty_content Samples.collected_once) as H3
    by (split; repeat constructor; done).
  assert (NoDup (spec_sig_of <$> urls_of Samples.collected_once)) as H4
    by compute_done.
  assert (NoDup (spec_sig_of <$> files_of Samples.collected_once)) as H5
    by compute_done.
  split; [exact H1|]. split; [exact H2|]. split; [exact H3|].
  split; [exact H4|]. split; [exact H5|].
  exact (deduplicate_keeps_distinct_resources Samples.collected_once
           H1 H2 H3 H4 H5).
Defined.

Lemma blank_signature c :
  PyStr.all_space (PyStr.slice_to 100 c) = true → signature_spec c = "".
Proof.
  intros Hb. unfold signature_spec, PyStr.strip, PyStr.re_sub_ws.
  apply rstrip_all_space.
  by rewrite all_space_lstrip, all_space_collapse, all_space_lower.
Qed.

(** X8.  Contents whose first 100 characters are all whitespace have
    the empty signature, so that they are near-duplicates of one
    another: once a namespace holds a resource with such a content (not
    empty, or it would be dropped itself), no later resource with a
    blank content is kept in it. *)
Theorem blank_contents_are_duplicates (r : ResourceSet)
    (ns : ResourceSet → list (string * Resource)) (i j : nat)
    (k k' : string) (d d' : Resource) :
  ns = urls_of ∨ ns = files_of →
  Dict.wf (ns r) → (i < j)%nat →
  ns r !! i = Some (k, d) → ns r !! j = Some (k', d') →
  get_content d ≠ "" →
  PyStr.all_space (PyStr.slice_to 100 (get_content d)) = true →
  PyStr.all_space (PyStr.slice_to 100 (get_content d')) = true →
  (k', d') ∉ ns (_deduplicate_resources r).2.
Proof.
  intros Hns Hwf Hij Hi Hj Hd Hb Hb'.
  assert (ns (_deduplicate_resources r).2 = first_seen ∅ (ns r)) as ->.
  { destruct (deduplicate_mappings r) as [Eu Ef].
    destruct Hns as [-> | ->]; rewrite ?Eu, ?Ef; by apply dedup_loop_fresh. }
  destruct (first_seen_deduplicated _ Hwf) as [_ Hiff].
  rewrite (Hiff j k' d' Hj). intros [_ Hfirst].
  apply (Hfirst i (k, d) Hij Hi Hd). cbn [snd].
  by rewrite !blank_signature.
Qed.

Lemma blank_contents_are_duplicates_witness :
  (urls_of = urls_of ∨ urls_of = files_of) ∧
  Dict.wf (urls_of ExtraSamples.two_blank) ∧ (0 < 1)%nat ∧
  urls_of ExtraSamples.two_blank !! 0%nat
  = Some ("https://a.example", Samples.resource " ") ∧
  urls_of ExtraSamples.two_blank !! 1%nat
  = Some ("https://b.example", Samples.resource "   ") ∧
  get_content (Samples.resource " ") ≠ "" ∧
  PyStr.all_space (PyStr.slice_to 100 (get_content (Samples.resource " ")))
  = true ∧
  PyStr.all_space (PyStr.slice_to 100 (get_content (Samples.resource "   ")))
  = true ∧
  ("https://b.example", Samples.resource "   ")
  ∉ urls_of (_deduplicate_resources ExtraSamples.two_blank).2.
Proof.
  assert (urls_of = urls_of ∨ urls_of = files_of) as H0 by (left; reflexivity).
  assert (Dict.wf (urls_of ExtraSamples.two_blank)) as H1 by compute_done.
  assert (0 < 1)%nat as H2 by lia.
  assert (urls_of ExtraSamples.two_blank !! 0%nat
          = Some ("https://a.example", Samples.resource " ")) as H3
    by reflexivity.
  assert (urls_of ExtraSamples.two_blank !! 1%nat
          = Some ("https://b.example", Samples.resource "   ")) as H4
    by reflexivity.
  assert (get_content (Samples.resource " ") ≠ "") as H5
    by (vm_compute; discriminate).
  assert (PyStr.all_space
            (PyStr.slice_to 100 (get_content (Samples.resource " ")))
          = true) as H6 by reflexivity.
  assert (PyStr.all_space
            (PyStr.slice_to 100 (get_content (Samples.resource "   ")))
          = true) as H7 by reflexivity.
  split; [exact H0|]. split; [exact H1|]. split; [exact H2|].
  split; [exact H3|]. split; [exact H4|]. split; [exact H5|].
  split; [exact H6|]. split; [exact H7|].
  exact (blank_contents_are_duplicates ExtraSamples.two_blank urls_of 0 1
           _ _ _ _ H0 H1 H2 H3 H4 H5 H6 H7).
Defined.

(** *** The size of the assembled context *)

Lemma length_slice_list {A} n (l : list A) :
  0 ≤ n → (length (PyStr.slice_list n l) ≤ Z.to_nat n)%nat.
Proof.
  intros Hn. unfold PyStr.slice_list. destruct (Z.leb_spec 0 n); [|lia].
  rewrite List.length_firstn. lia.
Qed.

Lemma length_format_entry t d :
  (String.length (format_entry t d)
   ≤ String.length (default t (title d)) + 509)%nat.
Proof.
  unfold format_entry. cbv zeta. rewrite !length_app.
  change (String.length "### ") with 4%nat.
  change (String.length nl) with 1%nat.
  assert (String.length
            (if (500 <? len (get_content d))%Z
             then PyStr.slice_to 500 (get_content d) +:+ "..."
             else get_content d) ≤ 503)%nat; [|lia].
  destruct (Z.ltb_spec 500 (len (get_content d))) as [Hlt|Hle].
  - rewrite length_app. change (String.length "...") with 3%nat.
    pose proof (length_slice_to 500 (get_content d)). lia.
  - unfold len in Hle. lia.
Qed.

(** X9.  With a number of items that is not negative, each of the two
    resource sections of the context holds its header and at most
    [max_items] entries, and an entry is never longer than its title
    plus 509 characters: the content shown is cut at 500 characters and
    three dots.  A section appears exactly when its mapping is not
    empty, whatever [max_items] is. *)
Theorem extract_context_sections_bounded (path_name : string → string)
    (r : ResourceSet) (max_items : Z) :
  0 ≤ max_items →
  (length (url_parts r max_items) ≤ S (Z.to_nat max_items))%nat ∧
  (length (file_parts path_name r max_items) ≤ S (Z.to_nat max_items))%nat ∧
  (∀ t d, (String.length (format_entry t d)
           ≤ String.length (default t (title d)) + 509)%nat) ∧
  (url_parts r max_items = [] ↔ urls_of r = []) ∧
  (file_parts path_name r max_items = [] ↔ files_of r = []).
Proof.
  intros Hn. unfold url_parts, file_parts. cbv zeta.
  split_and!.
  - destruct (urls_of r) as [|x l] eqn:E; [simpl; lia|].
    cbn [length]. rewrite length_fmap.
    pose proof (length_slice_list max_items (x :: l) Hn). lia.
  - destruct (files_of r) as [|x l] eqn:E; [simpl; lia|].
    cbn [length]. rewrite length_fmap.
    pose proof (length_slice_list max_items (x :: l) Hn). lia.
  - apply length_format_entry.
  - by destruct (urls_of r).
  - by destruct (files_of r).
Qed.

Lemma extract_context_sections_bounded_witness :
  0 ≤ 1 ∧
  (length (url_parts Samples.collected 1) ≤ S (Z.to_nat 1))%nat ∧
  (length (file_parts id Samples.collected 1) ≤ S (Z.to_nat 1))%nat ∧
  (∀ t d, (String.length (format_entry t d)
           ≤ String.length (default t (title d)) + 509)%nat) ∧
  (url_parts Samples.collected 1 = [] ↔ urls_of Samples.collected = []) ∧
  (file_parts id Samples.collected 1 = [] ↔ files_of Samples.collected = []).
Proof.
  assert (0 ≤ 1) as H by lia.
  split; [exact H|].
  exact (extract_context_sections_bounded id Samples.collected 1 H).
Defined.

End ManagerExtras.

(** ** [process_sources] and [get_stats] *)

Module ManagerCallsExtras.
Import ResourceManager ManagerCalls PyStrFacts.

Section ProcessSources.
Variable collect : list string → list string → ResourceSet.

Lemma deduplicate_outcome r :
  match stats r with
  | None => (_deduplicate_resources r).1 = Raise (KeyError "stats")
  | Some st =>
      ∃ r', (_deduplicate_resources r).1 = Ok r' ∧
            metadata r' = metadata r ∧
            ∃ st', stats r' = Some st' ∧
                   st' !! "total_content_size" = st !! "total_content_size"
  end.
Proof.
  unfold _deduplicate_resources. cbv zeta.
  destruct (stats r) as [st|]; [|done].
  eexists. split; [done|]. split; [done|]. eexists. split; [done|].
  by rewrite lookup_insert_ne.
Qed.

(** X10.  [process_sources] returns exactly when the collector's answer
    has both a ["stats"] and a ["metadata"] key, and what it returns is
    the post-processed answer.  Without ["stats"] it raises
    [KeyError('stats')], with or without deduplication: with it the
    manager is left untouched, without it [sources_processed] has
    already been assigned.  With ["stats"] and without ["metadata"] it
    raises [KeyError('metadata')] after [sources_processed] has been
    assigned.  [max_content_length] is never changed. *)
Theorem process_sources_outcome (urls paths : option (list string))
    (extract_keywords deduplicate : bool) (self : Manager) :
  match process_sources collect urls paths extract_keywords deduplicate self
  with
  | (Ok out, self') =>
      is_Some (stats (gathered collect urls paths)) ∧
      is_Some (metadata (gathered collect urls paths)) ∧
      post_process (max_content_length self) deduplicate
        (gathered collect urls paths) = Ok out ∧
      max_content_length self' = max_content_length self
  | (Raise e, self') =>
      max_content_length self' = max_content_length self ∧
      ((stats (gathered collect urls paths) = None ∧ e = KeyError "stats" ∧
        manager_stats self' !! "sources_processed"
        = if deduplicate then manager_stats self !! "sources_processed"
          else Some (Z.of_nat (length (default [] urls))
                     + Z.of_nat (length (default [] paths))))
       ∨ (is_Some (stats (gathered collect urls paths)) ∧
          metadata (gathered collect urls paths) = None ∧
          e = KeyError "metadata" ∧
          manager_stats self' !! "sources_processed"
          = Some (Z.of_nat (length (default [] urls))
                  + Z.of_nat (length (default [] paths)))))
  end.
Proof.
  unfold process_sources, post_process, gathered. cbv zeta.
  set (r := collect _ _).
  pose proof (deduplicate_outcome r) as Hd.
  destruct deduplicate.
  - destruct (stats r) as [st|] eqn:Hst.
    + destruct Hd as (r' & -> & Hmd & st' & Hst' & _).
      cbn [_truncate_content stats metadata]. rewrite Hst', Hmd.
      destruct (metadata r) as [md|].
      * split_and!; eauto.
      * split; [done|]. right. split_and!; eauto.
        cbn [with_manager_stats manager_stats].
        rewrite lookup_insert_ne by done. by rewrite lookup_insert_eq.
    + rewrite Hd. split; [done|]. left. done.
  - cbn [_truncate_content stats metadata].
    destruct (stats r) as [st|] eqn:Hst.
    + destruct (metadata r) as [md|].
      * split_and!; eauto.
      * split; [done|]. right. split_and!; eauto.
        cbn [with_manager_stats manager_stats].
        rewrite lookup_insert_ne by done. by rewrite lookup_insert_eq.
    + split; [done|]. left. split_and!; eauto.
      cbn [with_manager_stats manager_stats]. by rewrite lookup_insert_eq.
Qed.

(** X11.  After a call of [process_sources] that returns, the manager
    reports the number of urls and paths it was given, the
    [total_content_size] the collector had counted (the figure is not
    taken again after deduplication and truncation), and the number of
    keywords of the collected resources, which is that of the returned
    ones; its other counters are as before, and in [get_stats] a key of
    the collector shadows the manager's. *)
Theorem process_sources_counters (collector_stats : gmap string Z)
    (urls paths : option (list string))
    (extract_keywords deduplicate : bool) (self : Manager)
    (out : ResourceSet) (self' : Manager) :
  process_sources collect urls paths extract_keywords deduplicate self
  = (Ok out, self') →
  ∃ st,
    stats (gathered collect urls paths) = Some st ∧
    manager_stats self' !! "sources_processed"
    = Some (Z.of_nat (length (default [] urls))
            + Z.of_nat (length (default [] paths))) ∧
    manager_stats self' !! "total_content_size"
    = Some (default 0 (st !! "total_content_size")) ∧
    manager_stats self' !! "keywords_extracted"
    = Some (Z.of_nat (length (keywords_of (gathered collect urls paths)))) ∧
    keywords_of out = keywords_of (gathered collect urls paths) ∧
    (∀ k, k ∉ ["sources_processed"; "total_content_size";
               "keywords_extracted"] →
          manager_stats self' !! k = manager_stats self !! k) ∧
    (∀ k, get_stats collector_stats self' !! k
          = match collector_stats !! k with
            | Some v => Some v
            | None => manager_stats self' !! k
            end).
Proof.
  unfold process_sources, gathered. cbv zeta.
  set (r := collect _ _).
  pose proof (deduplicate_outcome r) as Hd.
  intros Hcall.
  assert (∃ st md r', stats r = Some st ∧ metadata r = Some md ∧
            metadata r' = Some md ∧
            (∃ st', stats r' = Some st' ∧
                    st' !! "total_content_size" = st !! "total_content_size") ∧
            (if deduplicate then (_deduplicate_resources r).1 else Ok r)
            = Ok r') as (st & md & r' & Hst & Hmd & Hmd' & (st' & Hst' & Hsz) & Hpre).
  { destruct deduplicate.
    - destruct (stats r) as [st|] eqn:Hst.
      + destruct Hd as (r' & Hr' & Hmd & st' & Hst' & Hsz).
        rewrite Hr' in Hcall. cbn [_truncate_content stats metadata] in Hcall.
        rewrite Hst', Hmd in Hcall.
        destruct (metadata r) as [md|] eqn:Hmdr; [|done].
        exists st, md, r'. split_and!; eauto.
      + by rewrite Hd in Hcall.
    - cbn [_truncate_content stats metadata] in Hcall.
      destruct (stats r) as [st|] eqn:Hst; [|done].
      destruct (metadata r) as [md|] eqn:Hmdr; [|done].
      exists st, md, r. split_and!; eauto. }
  rewrite Hpre in Hcall. cbn [_truncate_content stats metadata] in Hcall.
  rewrite Hst', Hmd' in Hcall. injection Hcall as <- <-.
  exists st. cbn [with_manager_stats manager_stats].
  unfold keywords_of. cbn [_truncate_content metadata]. rewrite Hmd, Hmd'.
  split_and!; try done.
  - by rewrite !lookup_insert_ne, lookup_insert_eq by done.
  - by rewrite lookup_insert_ne, lookup_insert_eq, Hsz by done.
  - by rewrite lookup_insert_eq.
  - intros k Hk. rewrite !lookup_insert_ne; [done|..];
      intros <-; apply Hk; set_solver.
  - intros k. unfold get_stats. rewrite lookup_union.
    cbn [with_manager_stats manager_stats].
    by destruct (collector_stats !! k), (_ !! k).
Qed.

End ProcessSources.

Lemma process_sources_counters_witness :
  process_sources ExtraSamples.collect_sample (Some ["https://a.example"])
    None true true (manager_init 10)
  = (Ok (_truncate_content 10 Samples.collected_once),
     ExtraSamples.manager_after) ∧
  ∃ st,
    stats (gathered ExtraSamples.collect_sample (Some ["https://a.example"])
             None) = Some st ∧
    manager_stats ExtraSamples.manager_after !! "sources_processed"
    = Some (Z.of_nat (length (default [] (Some ["https://a.example"])))
            + Z.of_nat (length (default [] (None : option (list string))))) ∧
    manager_stats ExtraSamples.manager_after !! "total_content_size"
    = Some (default 0 (st !! "total_content_size")) ∧
    manager_stats ExtraSamples.manager_after !! "keywords_extracted"
    = Some (Z.of_nat
              (length (keywords_of
                         (gathered ExtraSamples.collect_sample
                            (Some ["https://a.example"]) None)))) ∧
    keywords_of (_truncate_content 10 Samples.collected_once)
    = keywords_of (gathered ExtraSamples.collect_sample
                     (Some ["https://a.example"]) None) ∧
    (∀ k, k ∉ ["sources_processed"; "total_content_size";
               "keywords_extracted"] →
          manager_stats ExtraSamples.manager_after !! k
          = manager_stats (manager_init 10) !! k) ∧
    (∀ k, get_stats {["files_read" := 3]} ExtraSamples.manager_after !! k
          = match ({["files_read" := 3]} : gmap string Z) !! k with
            | Some v => Some v
            | None => manager_stats ExtraSamples.manager_after !! k
            end).
Proof.
  assert (process_sources ExtraSamples.collect_sample
            (Some ["https://a.example"]) None true true (manager_init 10)
          = (Ok (_truncate_content 10 Samples.collected_once),
             ExtraSamples.manager_after)) as H by (vm_compute; reflexivity).
  split; [exact H|].
  exact (process_sources_counters ExtraSamples.collect_sample
           {["files_read" := 3]} _ _ _ _ _ _ _ H).
Defined.
End ManagerCallsExtras.

(** ** The two renderings of the context *)

Module PromptExtras.
Import ResourceManager ManagerCalls PyStrFacts.

Lemma app_assoc_s (a b c : string) : (a +:+ b) +:+ c = a +:+ (b +:+ c).
Proof.
  induction a as [|x a IH]; [done|].
  change (String x a +:+ b) with (String x (a +:+ b)).
  change (String x (a +:+ b) +:+ c) with (String x ((a +:+ b) +:+ c)).
  by rewrite IH.
Qed.

Lemma format_entry_md_nl t d : format_entry t d = format_entry_md t d +:+ nl.
Proof.
  unfold format_entry, format_entry_md. cbv zeta.
  by rewrite !app_assoc_s.
Qed.

Section ForPrompt.
Variable path_name : string → string.

(** X12.  The rendering of [extract_context_for_prompt] with the
    [markdown] package and the rendering of [extract_context] have the
    same blocks for the web and the local resources, the second with a
    newline at the end of each block; both have at most one keyword
    block, and the one has it when the other does. *)
Theorem markdown_blocks_drop_newline (resources : ResourceSet)
    (max_items : Z) :
  url_parts resources max_items
  = (λ block, block +:+ nl) <$> url_parts_md resources max_items ∧
  file_parts path_name resources max_items
  = (λ block, block +:+ nl) <$> file_parts_md path_name resources max_items ∧
  length (keyword_parts resources) = length (keyword_parts_md resources) ∧
  (length (keyword_parts resources) ≤ 1)%nat.
Proof.
  unfold url_parts, url_parts_md, file_parts, file_parts_md, keyword_parts,
    keyword_parts_md. cbv zeta.
  split_and!.
  - destruct (urls_of resources) as [|u us]; [done|].
    rewrite fmap_cons. f_equal. rewrite <- list_fmap_compose.
    apply list_fmap_ext. intros _ [k d] _. apply format_entry_md_nl.
  - destruct (files_of resources) as [|u us]; [done|].
    rewrite fmap_cons. f_equal. rewrite <- list_fmap_compose.
    apply list_fmap_ext. intros _ [k d] _. apply format_entry_md_nl.
  - by destruct (keywords_of resources).
  - destruct (keywords_of resources); simpl; lia.
Qed.
End ForPrompt.

Lemma length_replace_char a b s :
  String.length (replace_char a b s) = String.length s.
Proof. induction s as [|c s IH]; [done|]. cbn. by rewrite IH. Qed.

(** X13.  The anchor of a keyword link has no space, is as long as the
    keyword, and is the keyword itself when that has no space; a link is
    five characters longer than twice the keyword. *)
Theorem keyword_anchor_has_no_space (kw : string) :
  Text.occurs " " (replace_char " " "-" kw) = false ∧
  String.length (replace_char " " "-" kw) = String.length kw ∧
  (Text.occurs " " kw = false → replace_char " " "-" kw = kw) ∧
  String.length (keyword_link kw) = (2 * String.length kw + 5)%nat.
Proof.
  split_and!.
  - induction kw as [|c s IH]; [done|]. cbn [replace_char Text.occurs].
    rewrite IH, orb_false_r. destruct (decide (c = " "%char)) as [->|Hc].
    + done.
    + by apply bool_decide_eq_false.
  - apply length_replace_char.
  - induction kw as [|c s IH]; [done|]. cbn [replace_char Text.occurs].
    intros [Hc Hs]%orb_false_elim. apply bool_decide_eq_false in Hc.
    rewrite IH by done. by destruct (decide (c = " "%char)).
  - unfold keyword_link. rewrite !length_app, length_replace_char.
    cbn [String.length]. lia.
Qed.

End PromptExtras.

(** ** The engine: failures, counters, and loading what was constructed *)

Module EngineExtras.
Import RAGEngine RAGSpec PyStrFacts EngineProperties.

Section Engine.
Variable chunk_text : Z → Z → string → list string.
Variable embed_text : string → string → result embedding.
Variable embed_texts : string → list string → result (list embedding).
Variable get_embedding_dimension : string → Z.
Variable similarity : embedding → embedding → Q.

(** X14.  When the provider fails to embed the query, [retrieve] raises
    one [RuntimeError] that carries the provider's message; the vector
    store and the counters are as before, and the engine differs only by
    the recorded call. *)
Theorem retrieve_embedding_failure (query : string) (top_k : nat)
    (threshold : Q) (source_filter : option SourceFilter) (e : Engine)
    (err : exn) :
  embed_text (embedder e) query = Raise err →
  ∃ e',
    retrieve embed_text similarity query top_k threshold source_filter e
    = (Raise (RuntimeError ("Failed to generate embedding for query: "
                            +:+ exn_str err)), e') ∧
    vector_db e' = vector_db e ∧ stats e' = stats e ∧
    e' = with_call (EmbedText query) e.
Proof. intros Herr. unfold retrieve. rewrite Herr. by eexists. Qed.

(** X15.  Every call of [retrieve], whether it returns or raises and
    also for a blank query, asks the provider exactly once, for the query
    as given; it changes neither the vector store nor the configuration,
    and it neither creates nor removes the [stats] attribute. *)
Theorem retrieve_asks_provider_once (query : string) (top_k : nat)
    (threshold : Q) (source_filter : option SourceFilter) (e : Engine) :
  provider_calls
    (retrieve embed_text similarity query top_k threshold source_filter e).2
  = provider_calls e ++ [EmbedText query] ∧
  vector_db
    (retrieve embed_text similarity query top_k threshold source_filter e).2
  = vector_db e ∧
  config
    (retrieve embed_text similarity query top_k threshold source_filter e).2
  = config e ∧
  (is_Some (stats e) ↔
   is_Some (stats (retrieve embed_text similarity query top_k threshold
                     source_filter e).2)).
Proof.
  unfold retrieve. cbv zeta.
  destruct (embed_text _ _); cbn [snd with_stats with_call provider_calls
    vector_db config stats]; split_and!; try done.
  unfold bump. destruct (stats e); [|done]. split; eauto.
Qed.

(** X16.  [add_document] returns 0 for a blank text and the number of
    chunks otherwise, and a call that returns 0 leaves the engine as it
    was; whatever it raises is a [RuntimeError], raised only for a text
    that is not blank, with the vector store and the counters as before.
    The provider is asked at most once, for all chunks together. *)
Theorem add_document_outcome (text : string)
    (metadata : option (gmap string string)) (source : option string)
    (e : Engine) :
  match add_document chunk_text embed_texts text metadata source e with
  | (Ok n, e') =>
      n = (if PyStr.all_space text then 0
           else Z.of_nat (length (chunk_text (chunker e).1 (chunker e).2 text)))
      ∧ (n = 0 → e' = e)
  | (Raise x, e') =>
      (∃ msg, x = RuntimeError msg) ∧
      PyStr.all_space text = false ∧
      vector_db e' = vector_db e ∧ stats e' = stats e
  end ∧
  ∃ calls,
    provider_calls (add_document chunk_text embed_texts text metadata source e).2
    = provider_calls e ++ calls ∧
    (calls = [] ∨
     calls = [EmbedTexts (chunk_text (chunker e).1 (chunker e).2 text)]).
Proof.
  unfold add_document. rewrite blank_test.
  destruct (PyStr.all_space text) eqn:Hb.
  { split; [done|]. exists []. by rewrite app_nil_r; eauto. }
  cbv zeta.
  destruct (chunk_text _ _ text) as [|c cs] eqn:Hcs.
  { split; [done|]. exists []. by rewrite app_nil_r; eauto. }
  destruct (embed_texts _ _) as [es|err].
  - destruct (db_add_document _ _ _ _ _) as [[ids db]|err].
    + split; [|eexists; split; [done|by right]].
      split; [done|]. cbn [length]. lia.
    + split; [|eexists; split; [done|by right]].
      split_and!; eauto.
  - split; [|eexists; split; [done|by right]].
    split_and!; eauto.
Qed.

(** X17.  On an engine that has the [stats] attribute, a call of
    [add_document] that stores [n > 0] chunks adds 1 to [documents_added]
    and [n] to [chunks_added] (a missing counter counts as 0) and leaves
    every other counter as it was. *)
Theorem add_document_counts (text : string)
    (metadata : option (gmap string string)) (source : option string)
    (e : Engine) (m : gmap string Z) (n : Z) (e' : Engine) :
  stats e = Some m →
  add_document chunk_text embed_texts text metadata source e = (Ok n, e') →
  n ≠ 0 →
  ∃ m',
    stats e' = Some m' ∧
    m' !! "documents_added" = Some (default 0 (m !! "documents_added") + 1) ∧
    m' !! "chunks_added" = Some (default 0 (m !! "chunks_added") + n) ∧
    (∀ k, k ≠ "documents_added" → k ≠ "chunks_added" → m' !! k = m !! k).
Proof.
  intros Hs Hadd Hn. unfold add_document in Hadd.
  destruct (_ || _); [by injection Hadd as <- _|]. cbv zeta in Hadd.
  destruct (chunk_text _ _ text) as [|c cs]; [by injection Hadd as <- _|].
  destruct (embed_texts _ _) as [es|err]; [|done].
  destruct (db_add_document _ _ _ _ _) as [[ids db]|err]; [|done].
  injection Hadd as <- <-.
  cbn [with_stats with_call with_vector_db stats]. rewrite Hs.
  cbn [bump]. eexists. split; [done|]. split_and!.
  - by rewrite lookup_insert_ne, lookup_insert_eq.
  - rewrite lookup_insert_eq. by rewrite lookup_insert_ne.
  - intros k H1 H2. by rewrite !lookup_insert_ne.
Qed.


End Engine.

Lemma init_unfold rid base model cs co w e w1 :
  __init__ (Some rid) base model cs co w = Ok (e, w1) →
  rid ≠ "" →
  ollama_available w = true ∧
  e = {| run_id := rid;
         base_dir := default (cwd w ++ ["output"; rid]) base;
         vector_dir := default (cwd w ++ ["output"; rid]) base ++ ["vectors"];
         vector_db :=
           default empty_db
             (vector_dbs w
              !! ((default (cwd w ++ ["output"; rid]) base ++ ["vectors"])
                  ++ ["vector.db"]));
         embedder := model; chunker := (cs, co);
         config := {| cfg_run_id := rid; cfg_embedding_model := model;
                      cfg_chunk_size := cs; cfg_chunk_overlap := co;
                      cfg_created_at := now w |};
         stats := None; provider_calls := [] |} ∧
  cwd w1 = cwd w ∧ ollama_available w1 = true ∧
  vector_dbs w1
  = <[(default (cwd w ++ ["output"; rid]) base ++ ["vectors"])
      ++ ["vector.db"] := vector_db e]> (vector_dbs w) ∧
  sidecars w1
  = <[(default (cwd w ++ ["output"; rid]) base ++ ["vectors"])
      ++ ["metadata.json"] := json_dump (config e)]> (sidecars w).
Proof.
  unfold __init__, check_for_ollama.
  destruct (ollama_available w) eqn:Hup; [|done].
  intros Hinit Hrid.
  assert (PyStr.truthy rid = true) as Ht by by destruct rid.
  rewrite Ht in Hinit. destruct base as [p|]; injection Hinit as <- <-; done.
Qed.

(** X19.  A run constructed with a run id and no [base_dir] loads at
    any later time: [load] returns an engine with the same run id,
    directories, embedding model and chunking, and without [stats].  The
    sidecar that the constructor wrote holds the configuration of the
    run; [load] writes it again, so that [created_at] becomes the time of
    the load. *)
Theorem load_after_init (d : bool) (rid model : string) (cs co : Z)
    (w : World) (t : Q) :
  ollama_available w = true → rid ≠ "" →
  ∃ e w1 e2 w2,
    __init__ (Some rid) None model cs co w = Ok (e, w1) ∧
    load d rid None (ExtraSamples.at_time t w1) = Ok (e2, w2) ∧
    run_id e2 = rid ∧ base_dir e2 = base_dir e ∧
    vector_dir e2 = vector_dir e ∧
    embedder e2 = model ∧ chunker e2 = (cs, co) ∧ stats e2 = None ∧
    config e2
    = {| cfg_run_id := rid; cfg_embedding_model := model;
         cfg_chunk_size := cs; cfg_chunk_overlap := co;
         cfg_created_at := t |} ∧
    sidecars w1 !! sidecar_path rid None w1 = Some (json_dump (config e)) ∧
    sidecars w2 !! sidecar_path rid None w1 = Some (json_dump (config e2)).
Proof.
  intros Hup0 Hrid.
  destruct (init_returns (Some rid) None model cs co w Hup0)
    as (e & w1 & Hinit & _).
  exists e, w1. rewrite Hinit.
  destruct (init_unfold _ _ _ _ _ _ _ _ Hinit Hrid)
    as (Hup & He & Hcwd & Hup1 & Hdbs & Hside).
  assert (PyStr.truthy rid = true) as Ht by by destruct rid.
  unfold load, check_for_ollama, ExtraSamples.at_time. cbv zeta.
  cbn [ollama_available cwd vector_dbs sidecars]. rewrite Hup1, Hcwd.
  cbn [from_option id] in *.
  assert (((cwd w ++ ["output"]) ++ [rid]) ++ ["vectors"; "vector.db"]
          = ((cwd w ++ ["output"; rid]) ++ ["vectors"]) ++ ["vector.db"])
    as Hp1 by by rewrite <- !app_assoc.
  assert (((cwd w ++ ["output"]) ++ [rid]) ++ ["vectors"; "metadata.json"]
          = ((cwd w ++ ["output"; rid]) ++ ["vectors"]) ++ ["metadata.json"])
    as Hp2 by by rewrite <- !app_assoc.
  rewrite Hp1, Hp2, Hdbs, Hside, !lookup_insert_eq.
  rewrite bool_decide_eq_true_2 by eauto. cbn [negb].
  unfold __init__, check_for_ollama. cbn [ollama_available now cwd].
  rewrite Ht. do 2 eexists. split; [done|]. split; [done|].
  cbn [run_id base_dir vector_dir embedder chunker stats config sidecars].
  rewrite He. cbn [base_dir vector_dir config json_dump j_embedding_model
    j_chunk_size j_chunk_overlap cfg_embedding_model cfg_chunk_size
    cfg_chunk_overlap from_option id].
  split_and!; try done.
  - unfold sidecar_path. cbn [from_option id]. rewrite Hcwd, Hp2.
    by rewrite lookup_insert_eq.
  - unfold sidecar_path. cbn [from_option id]. rewrite Hcwd, Hp2.
    by rewrite lookup_insert_eq.
Qed.

(** X20.  A run constructed with a run id and a [base_dir] keeps its
    store in [base_dir / "vectors"], while [load] with the same
    arguments looks under [base_dir / run_id / "vectors"]: unless a store
    was there before, [load] raises [FileNotFoundError] although the
    store of the run exists.  The run id is one path component (it has
    no ["/"] and is not ["."], which [pathlib] drops), and [base_dir]
    has at least one component. *)
Theorem load_misses_run_created_with_base_dir (d : bool) (rid model : string)
    (cs co : Z) (p : path) (w : World) (t : Q) :
  ollama_available w = true →
  rid ≠ "" → rid ≠ "." → Text.occurs "/" rid = false → p ≠ [] →
  vector_dbs w !! store_path rid (Some p) w = None →
  ∃ e w1,
    __init__ (Some rid) (Some p) model cs co w = Ok (e, w1) ∧
    vector_dir e = p ++ ["vectors"] ∧
    is_Some (vector_dbs w1 !! (vector_dir e ++ ["vector.db"])) ∧
    load d rid (Some p) (ExtraSamples.at_time t w1)
    = Raise (FileNotFoundError ("No RAG data found for run " +:+ rid)).
Proof.
  intros Hup0 Hrid _ _ _ Hnone.
  destruct (init_returns (Some rid) (Some p) model cs co w Hup0)
    as (e & w1 & Hinit & _).
  exists e, w1. split; [done|].
  destruct (init_unfold _ _ _ _ _ _ _ _ Hinit Hrid)
    as (Hup & He & Hcwd & Hup1 & Hdbs & Hside).
  cbn [from_option id] in *.
  assert (vector_dir e = p ++ ["vectors"]) as Hv by by rewrite He.
  split_and!; [done| |].
  - rewrite Hdbs, Hv, lookup_insert_eq. eauto.
  - unfold load, check_for_ollama, ExtraSamples.at_time. cbv zeta.
    cbn [ollama_available cwd vector_dbs sidecars]. rewrite Hup1.
    unfold store_path in Hnone. cbn [from_option id] in Hnone.
    rewrite Hdbs, lookup_insert_ne, Hnone.
    + by rewrite bool_decide_eq_false_2 by apply is_Some_None.
    + intros Heq. apply (f_equal length) in Heq.
      rewrite !List.length_app in Heq. cbn [length] in Heq. lia.
Qed.

Section OnSamples.
Import Samples ExtraSamples.

Lemma retrieve_embedding_failure_witness :
  embed_failing (embedder fresh_engine) "what is a chunk"
  = Raise (RuntimeError "connection refused") ∧
  ∃ e',
    retrieve embed_failing closeness "what is a chunk" 5 0%Q None
      fresh_engine
    = (Raise (RuntimeError ("Failed to generate embedding for query: "
                            +:+ exn_str (RuntimeError "connection refused"))),
       e') ∧
    vector_db e' = vector_db fresh_engine ∧ stats e' = stats fresh_engine ∧
    e' = with_call (EmbedText "what is a chunk") fresh_engine.
Proof.
  assert (embed_failing (embedder fresh_engine) "what is a chunk"
          = Raise (RuntimeError "connection refused")) as H by reflexivity.
  split; [exact H|].
  exact (retrieve_embedding_failure embed_failing closeness "what is a chunk"
           5 0%Q None fresh_engine _ H).
Defined.

Lemma add_document_counts_witness :
  stats (purge fresh_engine)
  = Some (<["documents_added" := 0]>
            (<["chunks_added" := 0]>
               (<["queries_performed" := 0]> (∅ : gmap string Z)))) ∧
  add_document one_chunk embed_all_by_length "a document" None (Some "doc1")
    (purge fresh_engine)
  = (Ok 1,
     (add_document one_chunk embed_all_by_length "a document" None
        (Some "doc1") (purge fresh_engine)).2) ∧
  1 ≠ 0 ∧
  ∃ m',
    stats (add_document one_chunk embed_all_by_length "a document" None
             (Some "doc1") (purge fresh_engine)).2 = Some m' ∧
    m' !! "documents_added"
    = Some (default 0
              ((<["documents_added" := 0]>
                  (<["chunks_added" := 0]>
                     (<["queries_performed" := 0]> (∅ : gmap string Z))))
               !! "documents_added") + 1) ∧
    m' !! "chunks_added"
    = Some (default 0
              ((<["documents_added" := 0]>
                  (<["chunks_added" := 0]>
                     (<["queries_performed" := 0]> (∅ : gmap string Z))))
               !! "chunks_added") + 1) ∧
    (∀ k, k ≠ "documents_added" → k ≠ "chunks_added" →
          m' !! k
          = (<["documents_added" := 0]>
               (<["chunks_added" := 0]>
                  (<["queries_performed" := 0]> (∅ : gmap string Z))))
            !! k).
Proof.
  assert (stats (purge fresh_engine)
          = Some (<["documents_added" := 0]>
                    (<["chunks_added" := 0]>
                       (<["queries_performed" := 0]> (∅ : gmap string Z)))))
    as H1 by reflexivity.
  assert (add_document one_chunk embed_all_by_length "a document" None
            (Some "doc1") (purge fresh_engine)
          = (Ok 1,
             (add_document one_chunk embed_all_by_length "a document" None
                (Some "doc1") (purge fresh_engine)).2)) as H2 by reflexivity.
  assert (1 ≠ 0) as H3 by lia.
  split_and!; [exact H1|exact H2|exact H3|].
  exact (add_document_counts one_chunk embed_all_by_length "a document" None
           (Some "doc1") (purge fresh_engine) _ 1 _ H1 H2 H3).
Defined.


Lemma load_after_init_witness :
  ollama_available world = true ∧ "run2" ≠ "" ∧
  ∃ e w1 e2 w2,
    __init__ (Some "run2") None "llama3.1:latest" 512 50 world = Ok (e, w1) ∧
    load false "run2" None (at_time (3400000100 # 2)%Q w1) = Ok (e2, w2) ∧
    run_id e2 = "run2" ∧ base_dir e2 = base_dir e ∧
    vector_dir e2 = vector_dir e ∧
    embedder e2 = "llama3.1:latest" ∧ chunker e2 = (512, 50) ∧
    stats e2 = None ∧
    config e2
    = {| cfg_run_id := "run2"; cfg_embedding_model := "llama3.1:latest";
         cfg_chunk_size := 512; cfg_chunk_overlap := 50;
         cfg_created_at := (3400000100 # 2)%Q |} ∧
    sidecars w1 !! sidecar_path "run2" None w1 = Some (json_dump (config e)) ∧
    sidecars w2 !! sidecar_path "run2" None w1
    = Some (json_dump (config e2)).
Proof.
  assert (ollama_available world = true) as H1 by reflexivity.
  assert ("run2" ≠ "") as H2 by discriminate.
  split_and!; [exact H1|exact H2|].
  exact (load_after_init false "run2" "llama3.1:latest" 512 50 world
           (3400000100 # 2)%Q H1 H2).
Defined.

Lemma load_misses_run_created_with_base_dir_witness :
  ollama_available world = true ∧
  "run3" ≠ "" ∧ "run3" ≠ "." ∧ Text.occurs "/" "run3" = false ∧
  ["data"] ≠ [] ∧
  vector_dbs world !! store_path "run3" (Some ["data"]) world = None ∧
  ∃ e w1,
    __init__ (Some "run3") (Some ["data"]) "llama3.1:latest" 512 50 world
    = Ok (e, w1) ∧
    vector_dir e = ["data"] ++ ["vectors"] ∧
    is_Some (vector_dbs w1 !! (vector_dir e ++ ["vector.db"])) ∧
    load false "run3" (Some ["data"]) (at_time (3400000100 # 2)%Q w1)
    = Raise (FileNotFoundError ("No RAG data found for run " +:+ "run3")).
Proof.
  assert (ollama_available world = true) as H1 by reflexivity.
  assert ("run3" ≠ "") as H2 by discriminate.
  assert ("run3" ≠ ".") as H2' by discriminate.
  assert (Text.occurs "/" "run3" = false) as H2'' by reflexivity.
  assert (["data"] ≠ ([] : path)) as H3 by discriminate.
  assert (vector_dbs world !! store_path "run3" (Some ["data"]) world = None)
    as H4 by (vm_compute; reflexivity).
  split_and!; [exact H1|exact H2|exact H2'|exact H2''|exact H3|exact H4|].
  exact (load_misses_run_created_with_base_dir false "run3" "llama3.1:latest"
           512 50 ["data"] world (3400000100 # 2)%Q H1 H2 H2' H2'' H3 H4).
Defined.

End OnSamples.

End EngineExtras.

(** ** The logging context *)

Module LogExtras.
Import Log PyStrFacts ResourceFacts.

Lemma update_wf d other : Dict.wf d → Dict.wf (update d other).
Proof.
  unfold update. revert d.
  induction other as [|[k v] other IH]; intros d Hd; [done|].
  cbn [foldl]. apply IH. by apply dict_set_wf.
Qed.

Lemma update_fresh d other :
  Dict.wf (d ++ other) → update d other = d ++ other.
Proof.
  unfold update, Dict.wf. revert d.
  induction other as [|[k v] other IH]; intros d Hd; cbn [foldl].
  - by rewrite app_nil_r.
  - rewrite dict_set_fresh.
    + rewrite IH; [by rewrite <- app_assoc|]. by rewrite <- app_assoc.
    + rewrite fmap_app, fmap_cons in Hd. cbn [fst] in Hd.
      apply NoDup_app in Hd as (_ & Hd & _). intros Hk.
      apply (Hd k Hk). set_solver.
Qed.

Lemma update_empty d : Dict.wf d → update [] d = d.
Proof. intros Hd. by apply (update_fresh [] d). Qed.

(** Induction on an [op] and on the blocks nested in it. *)
Lemma op_nested_ind (P : op → Prop) :
  (∀ kwargs, P (SetContext kwargs)) →
  P ClearContext →
  (∀ kwargs body, Forall P body → P (WithContext kwargs body)) →
  ∀ o, P o.
Proof.
  intros Hset Hclear Hwith. fix IH 1.
  intros [kwargs| |kwargs body]; [apply Hset|apply Hclear|].
  apply Hwith. induction body as [|o body IHbody]; constructor.
  - apply IH.
  - apply IHbody.
Qed.

Lemma run_with kwargs body tl :
  run (WithContext kwargs body) tl
  = exit (context_of tl) (run_all body (set_context kwargs tl)).
Proof.
  cbn [run enter]. f_equal. unfold run_all.
  generalize (set_context kwargs tl). induction body as [|o body IH];
    intros s; [done|]. cbn [foldl]. apply IH.
Qed.

Lemma run_all_Forall (P : thread_local → Prop) body tl :
  Forall (λ o, ∀ s, P s → P (run o s)) body → P tl → P (run_all body tl).
Proof.
  unfold run_all. revert tl.
  induction body as [|o body IH]; intros tl Hall Htl; [done|].
  apply Forall_cons in Hall as [Ho Hall]. cbn [foldl]. apply IH; [done|].
  by apply Ho.
Qed.

Lemma run_is_Some o : ∀ tl, is_Some tl → is_Some (run o tl).
Proof.
  induction o as [kwargs| |kwargs body IH] using op_nested_ind; intros tl Htl.
  - by eexists.
  - destruct Htl as [c ->]. by eexists.
  - rewrite run_with.
    assert (is_Some (run_all body (set_context kwargs tl))) as [c ->].
    { apply (run_all_Forall is_Some); [done|]. by eexists. }
    by eexists.
Qed.

Lemma run_wf o : ∀ tl, Dict.wf (context_of tl) → Dict.wf (context_of (run o tl)).
Proof.
  induction o as [kwargs| |kwargs body IH] using op_nested_ind; intros tl Htl.
  - by apply update_wf.
  - destruct tl; apply NoDup_nil_2.
  - rewrite run_with. unfold exit.
    destruct (run_all body (set_context kwargs tl)); [|apply NoDup_nil_2].
    cbn [context_of from_option id]. by rewrite update_empty.
Qed.

Lemma run_all_wf os tl :
  Dict.wf (context_of tl) → Dict.wf (context_of (run_all os tl)).
Proof.
  intros Htl.
  apply (run_all_Forall (λ s, Dict.wf (context_of s))); [|done].
  apply Forall_forall. intros o _ s. apply run_wf.
Qed.

(** X21.  Whatever a thread has done to its context before, and
    whatever the body of a [with log.with_context(...)] block does
    (calls of [set_context] and [clear_context], blocks nested in it),
    after the block the context is what it was before it, and so is the
    text that the filter writes into a record. *)
Theorem with_context_restores (history : list op)
    (kwargs : list (string * string)) (body : list op) :
  context_of (run (WithContext kwargs body) (run_all history None))
  = context_of (run_all history None) ∧
  filter_context (run (WithContext kwargs body) (run_all history None))
  = filter_context (run_all history None).
Proof.
  assert (context_of (run (WithContext kwargs body) (run_all history None))
          = context_of (run_all history None)) as H.
  { rewrite run_with.
    assert (is_Some (run_all body (set_context kwargs (run_all history None))))
      as [c ->].
    { apply (run_all_Forall is_Some); [|by eexists].
      apply Forall_forall. intros o _ s. apply run_is_Some. }
    cbn [exit context_of from_option id]. apply update_empty.
    apply run_all_wf. apply NoDup_nil_2. }
  split; [done|]. unfold filter_context. by rewrite H.
Qed.

Lemma occurs_app c a b :
  Text.occurs c (a +:+ b) = Text.occurs c a || Text.occurs c b.
Proof.
  induction a as [|x a IH]; [done|].
  change (String x a +:+ b) with (String x (a +:+ b)).
  cbn [Text.occurs]. by rewrite IH, orb_assoc.
Qed.

(** X22.  The filter writes the placeholder ["-"] exactly when the
    context is absent or empty; any other context text contains an
    ["="]. *)
Theorem filter_context_placeholder (tl : thread_local) :
  (filter_context tl = "-" ↔ context_of tl = []) ∧
  (Text.occurs "=" (filter_context tl) = false ↔ context_of tl = []).
Proof.
  assert (context_of tl ≠ [] → Text.occurs "=" (filter_context tl) = true)
    as Hocc.
  { unfold filter_context. destruct (context_of tl) as [|[k v] rest]; [done|].
    intros _. rewrite fmap_cons. cbn [fst snd PyStr.join].
    destruct (_ <$> rest); rewrite !occurs_app; cbn [Text.occurs];
      rewrite bool_decide_eq_true_2 by done; cbn [orb];
      by rewrite ?orb_true_r. }
  assert (context_of tl = [] → filter_context tl = "-") as Hdash.
  { unfold filter_context. by intros ->. }
  split; split; try done.
  - intros Heq. destruct (decide (context_of tl = [])) as [|Hne]; [done|].
    apply Hocc in Hne. by rewrite Heq in Hne.
  - intros Heq. destruct (decide (context_of tl = [])) as [|Hne]; [done|].
    apply Hocc in Hne. congruence.
  - intros Hnil. by rewrite (Hdash Hnil).
Qed.

Lemma get_set k k' v d :
  get k (Dict.set k' v d) = if decide (k = k') then Some v else get k d.
Proof.
  induction d as [|[k0 v0] d IH]; cbn [Dict.set get].
  - destruct (decide (k = k')); [|done]. done.
  - destruct (decide (k' = k0)) as [->|Hne]; cbn [get].
    + by destruct (decide (k = k0)).
    + rewrite IH. destruct (decide (k = k0)) as [->|]; [|done].
      by rewrite decide_False by done.
Qed.

Lemma get_None k d : k ∉ d.*1 → get k d = None.
Proof.
  induction d as [|[k0 v0] d IH]; [done|]. csimpl. intros Hk.
  rewrite decide_False by set_solver. apply IH. set_solver.
Qed.

Lemma get_update k d other :
  Dict.wf other →
  get k (update d other)
  = match get k other with Some v => Some v | None => get k d end.
Proof.
  unfold update. revert d.
  induction other as [|[k' v'] other IH]; intros d Hwf; [done|].
  apply NoDup_cons in Hwf as [Hk' Hwf].
  cbn [foldl fst snd get]. rewrite IH by done. rewrite get_set.
  destruct (decide (k = k')) as [->|Hne]; [|done].
  by rewrite get_None.
Qed.

(** X23.  [set_context] merges: after the call a key has the value the
    call gave it, and a key the call did not mention has the value it had
    before. *)
Theorem set_context_merges (kwargs : list (string * string))
    (tl : thread_local) (k : string) :
  Dict.wf kwargs →
  get k (context_of (set_context kwargs tl))
  = match get k kwargs with
    | Some v => Some v
    | None => get k (context_of tl)
    end.
Proof. intros Hwf. unfold set_context. by apply get_update. Qed.

Lemma set_context_merges_witness :
  Dict.wf [("run", "7"); ("stage", "collect")] ∧
  get "stage"
    (context_of (set_context [("run", "7"); ("stage", "collect")]
                   (Some [("stage", "init"); ("user", "ann")])))
  = match get "stage" [("run", "7"); ("stage", "collect")] with
    | Some v => Some v
    | None => get "stage" (context_of (Some [("stage", "init"); ("user", "ann")]))
    end.
Proof.
  assert (Dict.wf [("run", "7"); ("stage", "collect")]) as H by compute_done.
  split; [exact H|].
  exact (set_context_merges [("run", "7"); ("stage", "collect")]
           (Some [("stage", "init"); ("user", "ann")]) "stage" H).
Defined.

Lemma lower_char_idempotent c :
  PyStr.lower_char (PyStr.lower_char c) = PyStr.lower_char c.
Proof. by destruct c as [[] [] [] [] [] [] [] []]. Qed.

Lemma lower_idempotent s : PyStr.lower (PyStr.lower s) = PyStr.lower s.
Proof.
  induction s as [|c s IH]; [done|]. cbn [PyStr.lower].
  by rewrite lower_char_idempotent, IH.
Qed.

Lemma length_lower s : String.length (PyStr.lower s) = String.length s.
Proof. induction s as [|c s IH]; [done|]. cbn. by rewrite IH. Qed.

Lemma lstrip_shorter s :
  PyStr.lstrip s = s
  ∨ (String.length (PyStr.lstrip s) < String.length s)%nat.
Proof.
  induction s as [|c s IH]; [by left|]. cbn [PyStr.lstrip].
  destruct (PyStr.isspace c); [|by left]. right. cbn [String.length].
  destruct IH as [->|?]; lia.
Qed.

Lemma rstrip_shorter s :
  PyStr.rstrip s = s
  ∨ (String.length (PyStr.rstrip s) < String.length s)%nat.
Proof.
  induction s as [|c s IH]; [by left|]. cbn [PyStr.rstrip].
  destruct (_ && _); [right; cbn; lia|].
  destruct IH as [->|?]; [by left|right; cbn; lia].
Qed.

Lemma strip_shorter s :
  PyStr.strip s = s ∨ (String.length (PyStr.strip s) < String.length s)%nat.
Proof.
  unfold PyStr.strip.
  destruct (lstrip_shorter s) as [->|Hl]; [apply rstrip_shorter|].
  right. destruct (rstrip_shorter (PyStr.lstrip s)) as [->|Hr]; lia.
Qed.

(** X24.  [is_debug_mode] does not tell upper case from lower case in
    the value of [OSYLLABI_DEBUG], and it holds of no value that starts
    or ends with whitespace. *)
Theorem is_debug_mode_ignores_case (value : string) :
  is_debug_mode (Some (PyStr.lower value)) = is_debug_mode (Some value) ∧
  (is_debug_mode (Some value) = true → PyStr.strip value = value).
Proof.
  unfold is_debug_mode. cbn [from_option id]. split.
  - by rewrite lower_idempotent.
  - intros Hin%bool_decide_eq_true.
    assert (PyStr.strip (PyStr.lower value) = PyStr.lower value) as Hs.
    { set_unfold in Hin. destruct Hin as [->| [->| [->|[]]]]; reflexivity. }
    rewrite strip_lower in Hs. apply (f_equal String.length) in Hs.
    rewrite !length_lower in Hs.
    destruct (strip_shorter value) as [|Hlt]; [done|lia].
Qed.

End LogExtras.

(** ** The help texts *)

Module HelpExtras.
Import Help PyStrFacts PromptExtras.

Lemma length_spaces n : String.length (spaces n) = n.
Proof. induction n as [|n IH]; [done|]. cbn. by rewrite IH. Qed.

Lemma length_ljust n s :
  (String.length s ≤ n)%nat → String.length (ljust n s) = n.
Proof. intros Hle. unfold ljust. rewrite length_app, length_spaces. lia. Qed.

Lemma foldl_max_bound a l :
  (a ≤ foldl Nat.max a l)%nat ∧ Forall (λ x, (x ≤ foldl Nat.max a l)%nat) l.
Proof.
  revert a. induction l as [|x l IH]; intros a; cbn [foldl]; [done|].
  destruct (IH (Nat.max a x)) as [Ha Hl]. split; [lia|].
  constructor; [lia|done].
Qed.

Lemma max_len_bound keys m :
  max_len keys = Some m → Forall (λ k, (String.length k ≤ m)%nat) keys.
Proof.
  destruct keys as [|k ks]; [done|]. intros [= <-].
  destruct (foldl_max_bound (String.length k) (String.length <$> ks))
    as [Hk Hks].
  constructor; [done|]. by apply Forall_fmap in Hks.
Qed.

Lemma split_lines_nonempty s : split_lines s ≠ [].
Proof.
  destruct s as [|c s]; [done|]. cbn [split_lines].
  destruct (decide _); [done|]. by destruct (split_lines s).
Qed.

Lemma split_lines_join s : PyStr.join ResourceManager.nl (split_lines s) = s.
Proof.
  induction s as [|c s IH]; [done|]. cbn [split_lines].
  pose proof (split_lines_nonempty s) as Hne.
  destruct (split_lines s) as [|l ls] eqn:Hs; [done|]. clear Hne.
  destruct (decide (c = "010"%char)) as [->|Hc].
  - cbn [PyStr.join]. cbn [PyStr.join] in IH. by rewrite IH.
  - destruct ls as [|l' ls]; cbn [PyStr.join] in *; by rewrite <- IH.
Qed.

Lemma length_option_rows m opt desc :
  length (option_rows m opt desc) = length (split_lines desc).
Proof.
  unfold option_rows. destruct (split_lines desc); [done|].
  cbn [length]. by rewrite length_fmap.
Qed.

Lemma option_rows_placed m opt desc :
  (String.length opt ≤ m)%nat →
  Forall (λ row, ∃ line, line ∈ split_lines desc ∧ placed_at (m + 6) line row)
    (option_rows m opt desc).
Proof.
  intros Hle. unfold option_rows.
  destruct (split_lines desc) as [|first rest]; [done|]. constructor.
  - exists first. split; [left|].
    exists ("  " +:+ ljust m opt +:+ "    "). split.
    + by rewrite !app_assoc_s.
    + rewrite !length_app, length_ljust by done. cbn [String.length]. lia.
  - apply Forall_fmap, Forall_forall. intros line Hline.
    exists line. split; [by right|].
    exists ("  " +:+ spaces m +:+ "    "). split.
    + by rewrite !app_assoc_s.
    + rewrite !length_app, length_spaces. cbn [String.length]. lia.
Qed.

(** X25.  In the options block of [display_command_help], for any
    options: after the heading every row shows one line of one option's
    description, all from the same column (the longest option name and
    six more); there are as many rows as the descriptions have lines,
    and the lines of a description, joined by newlines, are the
    description. *)
Theorem options_block_aligned (command_name : string)
    (options : list (string * string)) :
  Forall (λ row, ∃ kv line,
            kv ∈ options ∧ line ∈ split_lines kv.2 ∧
            placed_at (default 0%nat (max_len options.*1) + 6) line row)
    (tail (options_block command_name options)) ∧
  length (tail (options_block command_name options))
  = sum_list ((λ kv, length (split_lines kv.2)) <$> options) ∧
  Forall (λ kv, PyStr.join ResourceManager.nl (split_lines kv.2) = kv.2) options.
Proof.
  split_and!.
  - unfold options_block. destruct options as [|kv0 options0] eqn:Ho; [done|].
    rewrite <- Ho. cbn [tail].
    assert (∃ m, max_len options.*1 = Some m) as [m Hm]
      by (rewrite Ho; by eexists).
    rewrite Hm. cbn [from_option id].
    pose proof (max_len_bound _ _ Hm) as Hb. apply Forall_fmap in Hb.
    clear Ho Hm. apply Forall_forall. intros row Hrow.
    apply list_elem_of_bind in Hrow as (kv & Hrow & Hkv).
    rewrite Forall_forall in Hb.
    pose proof (option_rows_placed m kv.1 kv.2 (Hb kv Hkv)) as Hp.
    rewrite Forall_forall in Hp. destruct (Hp row Hrow) as (line & ? & ?).
    by exists kv, line.
  - unfold options_block. destruct options as [|kv0 options0] eqn:Ho; [done|].
    rewrite <- Ho. cbn [tail]. generalize (default 0%nat (max_len options.*1)).
    intros m. clear Ho. induction options as [|kv options IH]; [done|].
    csimpl. by rewrite List.length_app, length_option_rows, IH.
  - apply Forall_forall. intros kv _. apply split_lines_join.
Qed.

#[local] Instance by_name_total : Total by_name.
Proof. intros a b. unfold by_name. apply (total String.le). Qed.

#[local] Instance by_name_trans : Transitive by_name.
Proof. intros a b c. unfold by_name. apply transitivity. Qed.

Lemma sorted_by_name l :
  StronglySorted by_name l → StronglySorted String.le l.*1.
Proof.
  induction 1 as [|a l Hs IH Hall]; csimpl; constructor; [done|].
  by apply Forall_fmap.
Qed.

(** X26.  [display_general_help] raises [ValueError] exactly when there
    is no command.  Otherwise it returns, and among the texts it prints
    there is one row per command, in the order of the command names,
    each showing the description of a command from the same column. *)
Theorem general_help_lists_commands (version : string)
    (command_descriptions : list (string * string)) :
  ((display_general_help version command_descriptions).2 = RaisesValueError
   ↔ command_descriptions = []) ∧
  (∀ m, max_len command_descriptions.*1 = Some m →
     (display_general_help version command_descriptions).2 = Returns ∧
     command_rows m command_descriptions
     `sublist_of` (display_general_help version command_descriptions).1 ∧
     length (command_rows m command_descriptions)
     = length command_descriptions ∧
     StronglySorted String.le (merge_sort by_name command_descriptions).*1 ∧
     merge_sort by_name command_descriptions ≡ₚ command_descriptions ∧
     Forall (λ row, ∃ kv, kv ∈ command_descriptions ∧
                          placed_at (m + 6) kv.2 row)
       (command_rows m command_descriptions)).
Proof.
  unfold display_general_help. cbv zeta. split.
  - destruct command_descriptions as [|kv l]; [done|]. csimpl. done.
  - intros m Hm. rewrite Hm. cbn [fst snd].
    pose proof (merge_sort_Permutation by_name command_descriptions) as Hperm.
    split_and!; try done.
    + apply sublist_inserts_l, sublist_inserts_r. done.
    + unfold command_rows. by rewrite length_fmap, Hperm.
    + apply sorted_by_name, (StronglySorted_merge_sort by_name).
    + pose proof (max_len_bound _ _ Hm) as Hb. apply Forall_fmap in Hb.
      rewrite Forall_forall in Hb.
      unfold command_rows. apply Forall_fmap, Forall_forall. intros kv Hkv.
      rewrite Hperm in Hkv. exists kv. split; [done|].
      exists ("  " +:+ ljust m kv.1 +:+ "    "). split.
      * by rewrite !app_assoc_s.
      * rewrite !length_app, length_ljust by by apply Hb.
        cbn [String.length]. lia.
Qed.

Lemma app_empty_r s : s +:+ "" = s.
Proof.
  induction s as [|c s IH]; [done|].
  by rewrite ManagerExtras.app_cons, IH.
Qed.

Lemma usage_info_head command_name :
  (get_command_usage_info command_name).1.2 ≠ [].
Proof.
  unfold get_command_usage_info. cbv zeta.
  by repeat (destruct (decide _) as [->|?]).
Qed.

(** X27.  For every command name, [get_command_usage_info] gives a usage
    line that starts with ["Usage: osyllabi "] and the name, options with
    distinct names of which the first is ["--debug"], and examples that
    all start with ["osyllabi "] and the name; there are examples
    exactly for [create], [clean] and [help], and exactly for these the
    last option is ["--help, -h"]. *)
Theorem usage_info_consistent (command_name : string) :
  match get_command_usage_info command_name with
  | (usage, options, examples) =>
      (∃ rest, usage = "Usage: osyllabi " +:+ command_name +:+ rest) ∧
      Dict.wf options ∧
      head options.*1 = Some "--debug" ∧
      Forall (λ example,
                ∃ rest, example = "osyllabi " +:+ command_name +:+ rest)
        examples ∧
      (examples = [] ↔ command_name ∉ ["create"; "clean"; "help"]) ∧
      (command_name ∈ ["create"; "clean"; "help"]
       ↔ last options.*1 = Some "--help, -h")
  end.
Proof.
  unfold get_command_usage_info. cbv zeta.
  destruct (decide (command_name = "create")) as [->|H1];
    [|destruct (decide (command_name = "clean")) as [->|H2];
      [|destruct (decide (command_name = "help")) as [->|H3]]].
  1-3: split_and!;
    [by eexists|compute_done|reflexivity
    |repeat constructor; by eexists
    |split; [done|intros H; exfalso; apply H; set_solver]
    |split; [intros _; reflexivity|intros _; set_solver]].
  split_and!.
  - exists "". by rewrite app_empty_r.
  - compute_done.
  - done.
  - done.
  - split; [|done]. intros _. set_solver.
  - split; [set_solver|done].
Qed.

Lemma get_is_Some k d : is_Some (Log.get k d) ↔ k ∈ d.*1.
Proof.
  induction d as [|[k' v] d IH]; csimpl.
  - split; [by intros [? ?]|by intros ?%elem_of_nil].
  - destruct (decide (k = k')) as [->|Hne].
    + split; [intros _; left|by eexists].
    + rewrite IH. set_solver.
Qed.

(** X28.  [display_command_help] prints nothing exactly when the command
    has no description.  For a command that has one it prints the header
    first, then among others the usage line and the options block, whose
    heading is ["Arguments:"] for [help] and ["Options:"] for any other
    command. *)
Theorem command_help_output (version : string) (upper : string → string)
    (command_name : string) (command_descriptions : list (string * string)) :
  (display_command_help version upper command_name command_descriptions = []
   ↔ command_name ∉ command_descriptions.*1) ∧
  (command_name ∈ command_descriptions.*1 →
   display_header version
   `prefix_of` display_command_help version upper command_name
                 command_descriptions ∧
   (get_command_usage_info command_name).1.1
   ∈ display_command_help version upper command_name command_descriptions ∧
   options_block command_name (get_command_usage_info command_name).1.2
   `sublist_of` display_command_help version upper command_name
                  command_descriptions ∧
   head (options_block command_name (get_command_usage_info command_name).1.2)
   = Some (if decide (command_name = "help") then ResourceManager.nl +:+ "Arguments:"
           else ResourceManager.nl +:+ "Options:")).
Proof.
  unfold display_command_help.
  pose proof (get_is_Some command_name command_descriptions) as Hget.
  destruct (Log.get command_name command_descriptions) as [description|].
  - assert (command_name ∈ command_descriptions.*1) as Hin
      by (apply Hget; eauto).
    pose proof (usage_info_head command_name) as Hhead.
    destruct (get_command_usage_info command_name)
      as [[usage options] examples].
    cbn [fst snd] in *. split.
    + split; [done|]. intros Hnot. by destruct Hnot.
    + intros _. split_and!.
      * by eexists.
      * set_solver.
      * apply sublist_inserts_l, sublist_inserts_l, sublist_inserts_r. done.
      * unfold options_block. destruct options as [|kv options]; [done|].
        cbn [head]. by destruct (decide (command_name = "help")) as [->|Hne];
          [rewrite bool_decide_eq_true_2 by done
          |rewrite bool_decide_eq_false_2 by done].
  - split; [|intros Hin; apply Hget in Hin; by destruct Hin].
    split; [|done]. intros _ Hin. apply Hget in Hin. by destruct Hin.
Qed.

End HelpExtras.
